(** * THSConvolution: the native convolution / pooling boundary of TorchSharp

    A shallow embedding of [src/Native/LibTorchSharp/THSConvolution.cpp].
    Every exported function of that file translates a handful of positional
    C arguments into a libtorch options record, delegates to libtorch, and
    converts faults at the boundary.  The embedding keeps the three layers
    apart:

    - [libtorch]: the option records and the [ExpandingArray] conversions of
      the wrapped library, and an interface ([TorchLibrary]) for the parts of
      it that do the numeric work;
    - the shared helpers of [THSNN.h] / [Utils.h] (catch boundary, handle
      wrapping, [create_module], parameter accessors);
    - the exported functions themselves, one definition per C function. *)

From Stdlib Require Import ZArith List Bool Lia.
From stdpp Require Import base option strings gmap.

Local Open Scope Z_scope.

(** ** C values *)

(** A C pointer to a heap object owned by the boundary layer: [None] is
    [nullptr], [Some a] the address [a]. *)
Definition handle := option positive.

Abbreviation nullptr := (@None positive).

(** [NNModule] is [std::shared_ptr<torch::nn::Module>*], [NNAnyModule] is
    [std::shared_ptr<torch::nn::AnyModule>*], [Tensor] is [torch::Tensor*]. *)
Definition NNModule := handle.
Definition NNAnyModule := handle.
Definition Tensor := handle.

(** A [const int64_t*] argument: [None] is the null pointer, [Some l] a
    pointer to memory that holds the 64-bit integers [l] (and nothing
    readable behind them). *)
Definition int64_ptr := option (list Z).

(** An [at::Tensor] value is a counted reference to a tensor implementation,
    or the undefined tensor ([at::Tensor()]). Tensor implementations are
    named by [positive] identities; their contents belong to libtorch. *)
Definition at_Tensor := option positive.

Definition defined (t : at_Tensor) : bool :=
  match t with Some _ => true | None => false end.

(** ** Process state *)

(** A constructed module object ([TImpl]): its static type, the options it
    was built from, and (for convolutions) its two parameter tensors. *)
Inductive ModuleKind : Type :=
  | AvgPoolNd (D : nat)
  | AdaptiveAvgPoolNd (D : nat)
  | AdaptiveMaxPoolNd (D : nat)
  | MaxPoolNd (D : nat)
  | ZeroPad2d
  | ConstantPadNd (D : nat)
  | ReplicationPadNd (D : nat)
  | ReflectionPadNd (D : nat)
  | ConvNd (D : nat)
  | ConvTransposeNd (D : nat).

#[global] Instance ModuleKind_eq_dec : EqDecision ModuleKind.
Proof. solve_decision. Defined.

(** ** libtorch: enumerations and option records *)

(** [torch::kZeros], [torch::kReflect], [torch::kReplicate],
    [torch::kCircular]. *)
Inductive padding_mode_t : Type := kZeros | kReflect | kReplicate | kCircular.

(** [ConvOptions<D>::padding_t], a variant of an explicit per-axis width,
    [torch::kValid] and [torch::kSame]. *)
Inductive padding_t : Type :=
  | Explicit (width : list Z)
  | kValid
  | kSame.

(** [ExpandingArray<D>(x)]: one value expanded to all [D] positions. *)
Definition ExpandingArray (D : nat) (x : Z) : list Z := repeat x D.

Module AvgPoolOptions.
Record t : Type := mk {
  kernel_size : list Z;
  stride : list Z;
  padding : list Z;
  ceil_mode : bool;
  count_include_pad : bool;
  divisor_override : option Z
}.

(** [AvgPoolOptions<D>(kernel_size)]: the stride defaults to the kernel
    size, the padding to zero. *)
Definition new (D : nat) (kernel_size : list Z) : t :=
  mk kernel_size kernel_size (ExpandingArray D 0) false true None.

Definition set_stride (v : list Z) (o : t) : t :=
  mk (kernel_size o) v (padding o) (ceil_mode o) (count_include_pad o)
     (divisor_override o).
End AvgPoolOptions.

Module MaxPoolOptions.
Record t : Type := mk {
  kernel_size : list Z;
  stride : list Z;
  padding : list Z;
  dilation : list Z;
  ceil_mode : bool
}.

(** [MaxPoolOptions<D>(kernel_size)]: stride defaults to the kernel size,
    padding to zero, dilation to one. *)
Definition new (D : nat) (kernel_size : list Z) : t :=
  mk kernel_size kernel_size (ExpandingArray D 0) (ExpandingArray D 1) false.

Definition set_stride (v : list Z) (o : t) : t :=
  mk (kernel_size o) v (padding o) (dilation o) (ceil_mode o).
Definition set_padding (v : list Z) (o : t) : t :=
  mk (kernel_size o) (stride o) v (dilation o) (ceil_mode o).
Definition set_dilation (v : list Z) (o : t) : t :=
  mk (kernel_size o) (stride o) (padding o) v (ceil_mode o).
Definition set_ceil_mode (v : bool) (o : t) : t :=
  mk (kernel_size o) (stride o) (padding o) (dilation o) v.
End MaxPoolOptions.

Module ConvOptions.
Record t : Type := mk {
  in_channels : Z;
  out_channels : Z;
  kernel_size : list Z;
  stride : list Z;
  padding : padding_t;
  dilation : list Z;
  groups : Z;
  bias : bool;
  padding_mode : padding_mode_t
}.

(** [ConvOptions<D>(in_channels, out_channels, kernel_size)]. *)
Definition new (D : nat) (in_channels out_channels : Z)
    (kernel_size : list Z) : t :=
  mk in_channels out_channels kernel_size (ExpandingArray D 1)
     (Explicit (ExpandingArray D 0)) (ExpandingArray D 1) 1 true kZeros.

Definition set_stride (v : list Z) (o : t) : t :=
  mk (in_channels o) (out_channels o) (kernel_size o) v (padding o)
     (dilation o) (groups o) (bias o) (padding_mode o).
Definition set_padding (v : padding_t) (o : t) : t :=
  mk (in_channels o) (out_channels o) (kernel_size o) (stride o) v
     (dilation o) (groups o) (bias o) (padding_mode o).
Definition set_dilation (v : list Z) (o : t) : t :=
  mk (in_channels o) (out_channels o) (kernel_size o) (stride o) (padding o)
     v (groups o) (bias o) (padding_mode o).
Definition set_groups (v : Z) (o : t) : t :=
  mk (in_channels o) (out_channels o) (kernel_size o) (stride o) (padding o)
     (dilation o) v (bias o) (padding_mode o).
Definition set_bias (v : bool) (o : t) : t :=
  mk (in_channels o) (out_channels o) (kernel_size o) (stride o) (padding o)
     (dilation o) (groups o) v (padding_mode o).
Definition set_padding_mode (v : padding_mode_t) (o : t) : t :=
  mk (in_channels o) (out_channels o) (kernel_size o) (stride o) (padding o)
     (dilation o) (groups o) (bias o) v.
End ConvOptions.

Module ConvTransposeOptions.
Record t : Type := mk {
  in_channels : Z;
  out_channels : Z;
  kernel_size : list Z;
  stride : list Z;
  padding : list Z;
  output_padding : list Z;
  groups : Z;
  bias : bool;
  dilation : list Z;
  padding_mode : padding_mode_t
}.

(** [ConvTransposeOptions<D>(in_channels, out_channels, kernel_size)]. The
    padding slot of a transposed convolution is a plain per-axis width: it
    has no [kValid] / [kSame] alternatives. *)
Definition new (D : nat) (in_channels out_channels : Z)
    (kernel_size : list Z) : t :=
  mk in_channels out_channels kernel_size (ExpandingArray D 1)
     (ExpandingArray D 0) (ExpandingArray D 0) 1 true (ExpandingArray D 1)
     kZeros.

Definition set_stride (v : list Z) (o : t) : t :=
  mk (in_channels o) (out_channels o) (kernel_size o) v (padding o)
     (output_padding o) (groups o) (bias o) (dilation o) (padding_mode o).
Definition set_padding (v : list Z) (o : t) : t :=
  mk (in_channels o) (out_channels o) (kernel_size o) (stride o) v
     (output_padding o) (groups o) (bias o) (dilation o) (padding_mode o).
Definition set_output_padding (v : list Z) (o : t) : t :=
  mk (in_channels o) (out_channels o) (kernel_size o) (stride o) (padding o)
     v (groups o) (bias o) (dilation o) (padding_mode o).
Definition set_groups (v : Z) (o : t) : t :=
  mk (in_channels o) (out_channels o) (kernel_size o) (stride o) (padding o)
     (output_padding o) v (bias o) (dilation o) (padding_mode o).
Definition set_bias (v : bool) (o : t) : t :=
  mk (in_channels o) (out_channels o) (kernel_size o) (stride o) (padding o)
     (output_padding o) (groups o) v (dilation o) (padding_mode o).
Definition set_dilation (v : list Z) (o : t) : t :=
  mk (in_channels o) (out_channels o) (kernel_size o) (stride o) (padding o)
     (output_padding o) (groups o) (bias o) v (padding_mode o).
Definition set_padding_mode (v : padding_mode_t) (o : t) : t :=
  mk (in_channels o) (out_channels o) (kernel_size o) (stride o) (padding o)
     (output_padding o) (groups o) (bias o) (dilation o) v.
End ConvTransposeOptions.

(** The options a module is built from, one alternative per options class.
    The adaptive pools keep an output size; the padding modules keep a
    per-side width (and the constant pads the fill value, a [double] kept as
    its 64-bit pattern because the boundary only passes it on). *)
Inductive ModuleOptions : Type :=
  | OAvgPool (o : AvgPoolOptions.t)
  | OAdaptivePool (output_size : list Z)
  | OMaxPool (o : MaxPoolOptions.t)
  | OPad (padding : list Z)
  | OConstantPad (padding : list Z) (value : Z)
  | OConv (o : ConvOptions.t)
  | OConvTranspose (o : ConvTransposeOptions.t).

Record ModuleImpl : Type := mkImpl {
  impl_kind : ModuleKind;
  impl_options : ModuleOptions;
  impl_weight : at_Tensor;
  impl_bias : at_Tensor
}.

(** The state the exported functions act on: the process-wide last-error
    slot, the heap objects behind the three kinds of handle, and the caller's
    memory cells that out-parameters point to. *)
Record State : Type := mkState {
  torch_last_err : option string;
  impls : gmap positive ModuleImpl;     (* module objects, by address *)
  modules : gmap positive positive;     (* NNModule box -> module object *)
  anymodules : gmap positive positive;  (* NNAnyModule box -> module object *)
  tensors : gmap positive at_Tensor;    (* Tensor box -> at::Tensor value *)
  cells : gmap positive handle;         (* caller memory behind out-parameters *)
  next : positive                       (* next address operator new returns *)
}.

(** ** Computations: state, C++ exceptions, undefined behaviour *)

(** What running a piece of C++ can end in: normal completion with a value,
    an exception in flight (with its [what()] text), or undefined behaviour
    (a null or dangling pointer was dereferenced, or memory was read behind
    the end of an array). *)
Inductive Outcome (A : Type) : Type :=
  | Ok (a : A) (s : State)
  | Throw (what : string) (s : State)
  | Crash.

Arguments Ok {A} a s.
Arguments Throw {A} what s.
Arguments Crash {A}.

Definition M (A : Type) : Type := State -> Outcome A.

Definition ret {A} (a : A) : M A := fun s => Ok a s.

Definition bind {A B} (m : M A) (k : A -> M B) : M B :=
  fun s =>
    match m s with
    | Ok a s' => k a s'
    | Throw w s' => Throw w s'
    | Crash => Crash
    end.

Definition throw {A} (what : string) : M A := fun s => Throw what s.
Definition crash {A} : M A := fun _ => Crash.

Notation "x <- m ;; k" := (bind m (fun x => k))
  (at level 100, m at next level, right associativity).

(** ** State accessors *)

Definition set_last_err (what : string) (s : State) : State :=
  mkState (Some what) (impls s) (modules s) (anymodules s) (tensors s)
          (cells s) (next s).

(** [operator new]: a fresh address. *)
Definition fresh : M positive :=
  fun s => Ok (next s)
    (mkState (torch_last_err s) (impls s) (modules s) (anymodules s)
             (tensors s) (cells s) (Pos.succ (next s))).

Definition put_impl (a : positive) (i : ModuleImpl) : M unit :=
  fun s => Ok tt
    (mkState (torch_last_err s) (<[a := i]> (impls s)) (modules s)
             (anymodules s) (tensors s) (cells s) (next s)).

Definition put_module (a obj : positive) : M unit :=
  fun s => Ok tt
    (mkState (torch_last_err s) (impls s) (<[a := obj]> (modules s))
             (anymodules s) (tensors s) (cells s) (next s)).

Definition put_anymodule (a obj : positive) : M unit :=
  fun s => Ok tt
    (mkState (torch_last_err s) (impls s) (modules s)
             (<[a := obj]> (anymodules s)) (tensors s) (cells s) (next s)).

Definition put_tensor (a : positive) (t : at_Tensor) : M unit :=
  fun s => Ok tt
    (mkState (torch_last_err s) (impls s) (modules s) (anymodules s)
             (<[a := t]> (tensors s)) (cells s) (next s)).

(** [*p = v] for an out-parameter [p]; storing through a null pointer is
    undefined. *)
Definition store (p : handle) (v : handle) : M unit :=
  fun s =>
    match p with
    | None => Crash
    | Some a =>
        Ok tt (mkState (torch_last_err s) (impls s) (modules s) (anymodules s)
                       (tensors s) (<[a := v]> (cells s)) (next s))
    end.

(** [*tensor] for a [Tensor] handle. *)
Definition deref_tensor (t : Tensor) : M at_Tensor :=
  fun s =>
    match t with
    | None => Crash
    | Some a => match tensors s !! a with
                | Some v => Ok v s
                | None => Crash
                end
    end.

(** [module->as<T>()] (after dereferencing the handle): the module object
    behind the handle, viewed at the
    static type [T]. [as<T>()] yields a null pointer when the object has
    another type, and every call site dereferences the result at once. *)
Definition module_as (T : ModuleKind) (module : NNModule) : M (positive * ModuleImpl) :=
  fun s =>
    match module with
    | None => Crash
    | Some a =>
        match modules s !! a with
        | None => Crash
        | Some obj =>
            match impls s !! obj with
            | None => Crash
            | Some i =>
                if decide (impl_kind i = T) then Ok (obj, i) s else Crash
            end
        end
    end.

(** ** libtorch: array conversions *)

(** [at::ArrayRef<int64_t>(data, length)]: a pointer and a [size_t] count.
    The count arrives as a C [int] (or the literal 1) and converts to
    [size_t] modulo 2^64. *)
Record ArrayRef_t : Type := mkArrayRef { ar_data : int64_ptr; ar_size : Z }.

Definition ArrayRef (data : int64_ptr) (length : Z) : ArrayRef_t :=
  mkArrayRef data (length mod 2 ^ 64).

(** The implicit conversion [ExpandingArray<D>(at::ArrayRef<int64_t>)]:
    [TORCH_CHECK(values.size() == D, ...)], then the [D] values are copied
    out of the caller's memory. *)
Definition ExpandingArray_of (D : nat) (values : ArrayRef_t) : M (list Z) :=
  if ar_size values =? Z.of_nat D then
    match ar_data values with
    | None => if (D =? 0)%nat then ret [] else crash
    | Some l =>
        if (D <=? length l)%nat then ret (firstn D l) else crash
    end
  else throw "Expected a fixed number of values for an ExpandingArray".

(** ** libtorch: the numeric part, as an interface *)

(** Construction of a module of type [T] from its options validates the
    options and creates the parameters; the forward computations produce
    fresh tensors. Each of them can raise. What they compute is libtorch's
    business and is left open. *)
Class TorchLibrary : Type := {
  Impl_new : ModuleKind -> ModuleOptions -> string + (at_Tensor * at_Tensor);
  Impl_forward : ModuleImpl -> at_Tensor -> string + positive;
  Impl_forward_with_indices :
    ModuleImpl -> at_Tensor -> string + (positive * positive)
}.

Definition lift {A} (r : string + A) : M A :=
  match r with
  | inl what => throw what
  | inr a => ret a
  end.

(** ** The padding-mode helper of THSConvolution.cpp *)

(** [ApplyPaddingMode] is a template over the options type; it only needs the
    [padding_mode] setter of that type. *)
Class HasPaddingMode (T : Type) : Type :=
  with_padding_mode : padding_mode_t -> T -> T.

#[global] Instance ConvOptions_HasPaddingMode : HasPaddingMode ConvOptions.t :=
  ConvOptions.set_padding_mode.
#[global] Instance ConvTransposeOptions_HasPaddingMode :
  HasPaddingMode ConvTransposeOptions.t :=
  ConvTransposeOptions.set_padding_mode.

Definition ApplyPaddingMode {T} `{HasPaddingMode T} (opts : T) (padding : Z) : T :=
  let opts := if padding =? 0 then with_padding_mode kZeros opts else opts in
  let opts := if padding =? 1 then with_padding_mode kReflect opts else opts in
  let opts := if padding =? 2 then with_padding_mode kReplicate opts else opts in
  let opts := if padding =? 3 then with_padding_mode kCircular opts else opts in
  opts.

Section Boundary.
Context `{lib : TorchLibrary}.

(** ** Shared helpers of the binding layer *)

(** Modelled from the spec: the catch boundary (the [CATCH] macro family
    comes from a header that is not part of this file). "Every exported
    function wraps its body in a catch boundary; on fault, the boundary
    records the fault's description in process-wide last-error state and
    returns a null/default result." The statement [stmt] computes the value
    it assigns to the result variable; when it raises, the variable keeps
    the value [res] it was initialised with. *)
Definition CATCH {A} (res : A) (stmt : M A) : M A :=
  fun s =>
    match stmt s with
    | Ok a s' => Ok a s'
    | Throw what s' => Ok res (set_last_err what s')
    | Crash => Crash
    end.

(** Modelled from the spec: [CATCH_RETURN_NNModule(stmt)], the boundary of
    the constructors: "converted to a null result plus a recorded error
    status". *)
Definition CATCH_RETURN_NNModule (stmt : M NNModule) : M NNModule :=
  CATCH nullptr stmt.

(** Modelled from the spec: [ResultTensor], the "wrap tensor for transit"
    helper: a defined tensor is boxed behind a new handle; "no tensor
    handle is returned on failure", when the tensor is still the undefined
    one the result variable started with. *)
Definition ResultTensor (res : at_Tensor) : M Tensor :=
  if defined res then
    a <- fresh ;;
    _ <- put_tensor a res ;;
    ret (Some a)
  else ret nullptr.

(** Modelled from the spec: [CATCH_TENSOR(expr)], the boundary of the
    forward functions and getters: the tensor variable starts undefined, is
    assigned under the boundary and is wrapped for transit. *)
Definition CATCH_TENSOR (expr : M at_Tensor) : M Tensor :=
  res <- CATCH None expr ;;
  ResultTensor res.

(** Modelled from the spec: [create_module<TImpl>(opts, outAsAnyModule)],
    the "wrap module, optionally produce polymorphic view" helper: "a newly
    constructed module handle; if an out-parameter for a polymorphic view
    is supplied, also populates it with a type-erased wrapper over the same
    module." *)
Definition create_module (T : ModuleKind) (opts : ModuleOptions)
    (outAsAnyModule : handle) : M NNModule :=
  params <- lift (Impl_new T opts) ;;
  obj <- fresh ;;
  _ <- put_impl obj (mkImpl T opts (fst params) (snd params)) ;;
  _ <- match outAsAnyModule with
       | None => ret tt
       | Some _ =>
           wrapped <- fresh ;;
           _ <- put_anymodule wrapped obj ;;
           store outAsAnyModule (Some wrapped)
       end ;;
  res <- fresh ;;
  _ <- put_module res obj ;;
  ret (Some res).

(** Modelled from the spec: the accessor template [get_weight<T>] (the
    exported accessors forward to four templates of a header that is not
    part of this file): "get returns the current parameter tensor handle
    (shared ownership with the module)". *)
Definition get_weight (T : ModuleKind) (module : NNModule) : M Tensor :=
  CATCH_TENSOR (m <- module_as T module ;; ret (impl_weight (snd m))).

(** Modelled from the spec: the accessor template [set_weight<T>]: "set
    replaces the module's parameter tensor with the supplied handle". The
    module then holds the tensor the handle refers to. *)
Definition set_weight (T : ModuleKind) (module : NNModule) (weight : Tensor)
    : M unit :=
  CATCH tt
    (m <- module_as T module ;;
     w <- deref_tensor weight ;;
     put_impl (fst m)
       (mkImpl (impl_kind (snd m)) (impl_options (snd m)) w
               (impl_bias (snd m)))).

(** Modelled from the spec: the accessor template [get_bias<T>], as
    [get_weight<T>] for the bias parameter. *)
Definition get_bias (T : ModuleKind) (module : NNModule) : M Tensor :=
  CATCH_TENSOR (m <- module_as T module ;; ret (impl_bias (snd m))).

(** Modelled from the spec: the accessor template [set_bias<T>], as
    [set_weight<T>] for the bias parameter. *)
Definition set_bias (T : ModuleKind) (module : NNModule) (bias : Tensor)
    : M unit :=
  CATCH tt
    (m <- module_as T module ;;
     b <- deref_tensor bias ;;
     put_impl (fst m)
       (mkImpl (impl_kind (snd m)) (impl_options (snd m))
               (impl_weight (snd m)) b)).

(** The expression [module->as<T>()->forward(tensor)] of every forward
    function (both handles dereferenced). *)
Definition module_forward (T : ModuleKind) (module : NNModule)
    (tensor : Tensor) : M at_Tensor :=
  m <- module_as T module ;;
  x <- deref_tensor tensor ;;
  y <- lift (Impl_forward (snd m) x) ;;
  ret (Some y).

Definition module_forward_with_indices (T : ModuleKind) (module : NNModule)
    (tensor : Tensor) : M (at_Tensor * at_Tensor) :=
  m <- module_as T module ;;
  x <- deref_tensor tensor ;;
  y <- lift (Impl_forward_with_indices (snd m) x) ;;
  ret (Some (fst y), Some (snd y)).

(** ** Pooling *)

Definition AvgPool1d_opts (kernelSize stride : int64_ptr) : M ModuleOptions :=
  k <- ExpandingArray_of 1 (ArrayRef kernelSize 1) ;;
  opts <- ret (AvgPoolOptions.new 1 k) ;;
  opts <- match stride with
          | Some _ =>
              v <- ExpandingArray_of 1 (ArrayRef stride 1) ;;
              ret (AvgPoolOptions.set_stride v opts)
          | None => ret opts
          end ;;
  ret (OAvgPool opts).

Definition THSNN_AvgPool1d_ctor (kernelSize stride : int64_ptr)
    (outAsAnyModule : handle) : M NNModule :=
  CATCH_RETURN_NNModule
    (opts <- AvgPool1d_opts kernelSize stride ;;
     create_module (AvgPoolNd 1) opts outAsAnyModule).

Definition THSNN_AvgPool1d_forward (module : NNModule) (tensor : Tensor) :=
  CATCH_TENSOR (module_forward (AvgPoolNd 1) module tensor).

Definition AvgPool2d_opts (kernelSize : int64_ptr) (kernelSizeLength : Z)
    (stride : int64_ptr) (strideLength : Z) : M ModuleOptions :=
  k <- ExpandingArray_of 2 (ArrayRef kernelSize kernelSizeLength) ;;
  opts <- ret (AvgPoolOptions.new 2 k) ;;
  opts <- match stride with
          | Some _ =>
              v <- ExpandingArray_of 2 (ArrayRef stride strideLength) ;;
              ret (AvgPoolOptions.set_stride v opts)
          | None => ret opts
          end ;;
  ret (OAvgPool opts).

Definition THSNN_AvgPool2d_ctor (kernelSize : int64_ptr) (kernelSizeLength : Z)
    (stride : int64_ptr) (strideLength : Z) (outAsAnyModule : handle)
    : M NNModule :=
  CATCH_RETURN_NNModule
    (opts <- AvgPool2d_opts kernelSize kernelSizeLength stride strideLength ;;
     create_module (AvgPoolNd 2) opts outAsAnyModule).

Definition THSNN_AvgPool2d_forward (module : NNModule) (tensor : Tensor) :=
  CATCH_TENSOR (module_forward (AvgPoolNd 2) module tensor).

Definition AvgPool3d_opts (kernelSize : int64_ptr) (kernelSizeLength : Z)
    (stride : int64_ptr) (strideLength : Z) : M ModuleOptions :=
  k <- ExpandingArray_of 3 (ArrayRef kernelSize kernelSizeLength) ;;
  opts <- ret (AvgPoolOptions.new 3 k) ;;
  opts <- match stride with
          | Some _ =>
              v <- ExpandingArray_of 3 (ArrayRef stride strideLength) ;;
              ret (AvgPoolOptions.set_stride v opts)
          | None => ret opts
          end ;;
  ret (OAvgPool opts).

Definition THSNN_AvgPool3d_ctor (kernelSize : int64_ptr) (kernelSizeLength : Z)
    (stride : int64_ptr) (strideLength : Z) (outAsAnyModule : handle)
    : M NNModule :=
  CATCH_RETURN_NNModule
    (opts <- AvgPool3d_opts kernelSize kernelSizeLength stride strideLength ;;
     create_module (AvgPoolNd 3) opts outAsAnyModule).

Definition THSNN_AvgPool3d_forward (module : NNModule) (tensor : Tensor) :=
  CATCH_TENSOR (module_forward (AvgPoolNd 3) module tensor).

(** The six adaptive-pool constructors build their options the same way,
    up to the dimension [D] of the options class. *)
Definition AdaptivePool_opts (D : nat) (kernelSize : int64_ptr)
    (kernelSizeLength : Z) : M ModuleOptions :=
  k <- ExpandingArray_of D (ArrayRef kernelSize kernelSizeLength) ;;
  ret (OAdaptivePool k).

Definition THSNN_AdaptiveAvgPool1d_ctor (kernelSize : int64_ptr)
    (kernelSizeLength : Z) (outAsAnyModule : handle) : M NNModule :=
  CATCH_RETURN_NNModule
    (opts <- AdaptivePool_opts 1 kernelSize kernelSizeLength ;;
     create_module (AdaptiveAvgPoolNd 1) opts outAsAnyModule).

Definition THSNN_AdaptiveAvgPool1d_forward (module : NNModule) (tensor : Tensor) :=
  CATCH_TENSOR (module_forward (AdaptiveAvgPoolNd 1) module tensor).

Definition THSNN_AdaptiveAvgPool2d_ctor (kernelSize : int64_ptr)
    (kernelSizeLength : Z) (outAsAnyModule : handle) : M NNModule :=
  CATCH_RETURN_NNModule
    (opts <- AdaptivePool_opts 2 kernelSize kernelSizeLength ;;
     create_module (AdaptiveAvgPoolNd 2) opts outAsAnyModule).

Definition THSNN_AdaptiveAvgPool2d_forward (module : NNModule) (tensor : Tensor) :=
  CATCH_TENSOR (module_forward (AdaptiveAvgPoolNd 2) module tensor).

Definition THSNN_AdaptiveAvgPool3d_ctor (kernelSize : int64_ptr)
    (kernelSizeLength : Z) (outAsAnyModule : handle) : M NNModule :=
  CATCH_RETURN_NNModule
    (opts <- AdaptivePool_opts 3 kernelSize kernelSizeLength ;;
     create_module (AdaptiveAvgPoolNd 3) opts outAsAnyModule).

Definition THSNN_AdaptiveAvgPool3d_forward (module : NNModule) (tensor : Tensor) :=
  CATCH_TENSOR (module_forward (AdaptiveAvgPoolNd 3) module tensor).

Definition THSNN_AdaptiveMaxPool1d_ctor (kernelSize : int64_ptr)
    (kernelSizeLength : Z) (outAsAnyModule : handle) : M NNModule :=
  CATCH_RETURN_NNModule
    (opts <- AdaptivePool_opts 1 kernelSize kernelSizeLength ;;
     create_module (AdaptiveMaxPoolNd 1) opts outAsAnyModule).

Definition THSNN_AdaptiveMaxPool1d_forward (module : NNModule) (tensor : Tensor) :=
  CATCH_TENSOR (module_forward (AdaptiveMaxPoolNd 1) module tensor).

Definition THSNN_AdaptiveMaxPool2d_ctor (kernelSize : int64_ptr)
    (kernelSizeLength : Z) (outAsAnyModule : handle) : M NNModule :=
  CATCH_RETURN_NNModule
    (opts <- AdaptivePool_opts 2 kernelSize kernelSizeLength ;;
     create_module (AdaptiveMaxPoolNd 2) opts outAsAnyModule).

Definition THSNN_AdaptiveMaxPool2d_forward (module : NNModule) (tensor : Tensor) :=
  CATCH_TENSOR (module_forward (AdaptiveMaxPoolNd 2) module tensor).

Definition THSNN_AdaptiveMaxPool3d_ctor (kernelSize : int64_ptr)
    (kernelSizeLength : Z) (outAsAnyModule : handle) : M NNModule :=
  CATCH_RETURN_NNModule
    (opts <- AdaptivePool_opts 3 kernelSize kernelSizeLength ;;
     create_module (AdaptiveMaxPoolNd 3) opts outAsAnyModule).

Definition THSNN_AdaptiveMaxPool3d_forward (module : NNModule) (tensor : Tensor) :=
  CATCH_TENSOR (module_forward (AdaptiveMaxPoolNd 3) module tensor).

Definition MaxPool1d_opts (kernelSize stride padding dilation : int64_ptr)
    (ceil_mode : bool) : M ModuleOptions :=
  k <- ExpandingArray_of 1 (ArrayRef kernelSize 1) ;;
  opts <- ret (MaxPoolOptions.set_ceil_mode ceil_mode (MaxPoolOptions.new 1 k)) ;;
  opts <- match stride with
          | Some _ =>
              v <- ExpandingArray_of 1 (ArrayRef stride 1) ;;
              ret (MaxPoolOptions.set_stride v opts)
          | None => ret opts
          end ;;
  opts <- match padding with
          | Some _ =>
              v <- ExpandingArray_of 1 (ArrayRef padding 1) ;;
              ret (MaxPoolOptions.set_padding v opts)
          | None => ret opts
          end ;;
  opts <- match dilation with
          | Some _ =>
              v <- ExpandingArray_of 1 (ArrayRef dilation 1) ;;
              ret (MaxPoolOptions.set_dilation v opts)
          | None => ret opts
          end ;;
  ret (OMaxPool opts).

Definition THSNN_MaxPool1d_ctor (kernelSize stride padding dilation : int64_ptr)
    (ceil_mode : bool) (outAsAnyModule : handle) : M NNModule :=
  CATCH_RETURN_NNModule
    (opts <- MaxPool1d_opts kernelSize stride padding dilation ceil_mode ;;
     create_module (MaxPoolNd 1) opts outAsAnyModule).

Definition THSNN_MaxPool1d_forward (module : NNModule) (tensor : Tensor) :=
  CATCH_TENSOR (module_forward (MaxPoolNd 1) module tensor).

Definition THSNN_MaxPool1d_forward_with_indices (module : NNModule)
    (tensor : Tensor) (indices : handle) : M Tensor :=
  res <- CATCH (None, None)
           (module_forward_with_indices (MaxPoolNd 1) module tensor) ;;
  i <- ResultTensor (snd res) ;;
  _ <- store indices i ;;
  ResultTensor (fst res).

Definition MaxPool2d_opts (kernelSize : int64_ptr) (kernelSizeLength : Z)
    (stride : int64_ptr) (strideLength : Z)
    (padding : int64_ptr) (paddingLength : Z)
    (dilation : int64_ptr) (dilationLength : Z)
    (ceil_mode : bool) : M ModuleOptions :=
  k <- ExpandingArray_of 2 (ArrayRef kernelSize kernelSizeLength) ;;
  opts <- ret (MaxPoolOptions.set_ceil_mode ceil_mode (MaxPoolOptions.new 2 k)) ;;
  opts <- match stride with
          | Some _ =>
              v <- ExpandingArray_of 2 (ArrayRef stride strideLength) ;;
              ret (MaxPoolOptions.set_stride v opts)
          | None => ret opts
          end ;;
  opts <- match padding with
          | Some _ =>
              v <- ExpandingArray_of 2 (ArrayRef padding paddingLength) ;;
              ret (MaxPoolOptions.set_padding v opts)
          | None => ret opts
          end ;;
  opts <- match dilation with
          | Some _ =>
              v <- ExpandingArray_of 2 (ArrayRef dilation dilationLength) ;;
              ret (MaxPoolOptions.set_dilation v opts)
          | None => ret opts
          end ;;
  ret (OMaxPool opts).

Definition THSNN_MaxPool2d_ctor (kernelSize : int64_ptr) (kernelSizeLength : Z)
    (stride : int64_ptr) (strideLength : Z)
    (padding : int64_ptr) (paddingLength : Z)
    (dilation : int64_ptr) (dilationLength : Z)
    (ceil_mode : bool) (outAsAnyModule : handle) : M NNModule :=
  CATCH_RETURN_NNModule
    (opts <- MaxPool2d_opts kernelSize kernelSizeLength stride strideLength
               padding paddingLength dilation dilationLength ceil_mode ;;
     create_module (MaxPoolNd 2) opts outAsAnyModule).

Definition THSNN_MaxPool2d_forward (module : NNModule) (tensor : Tensor) :=
  CATCH_TENSOR (module_forward (MaxPoolNd 2) module tensor).

Definition THSNN_MaxPool2d_forward_with_indices (module : NNModule)
    (tensor : Tensor) (indices : handle) : M Tensor :=
  res <- CATCH (None, None)
           (module_forward_with_indices (MaxPoolNd 2) module tensor) ;;
  i <- ResultTensor (snd res) ;;
  _ <- store indices i ;;
  ResultTensor (fst res).

Definition MaxPool3d_opts (kernelSize : int64_ptr) (kernelSizeLength : Z)
    (stride : int64_ptr) (strideLength : Z)
    (padding : int64_ptr) (paddingLength : Z)
    (dilation : int64_ptr) (dilationLength : Z)
    (ceil_mode : bool) : M ModuleOptions :=
  k <- ExpandingArray_of 3 (ArrayRef kernelSize kernelSizeLength) ;;
  opts <- ret (MaxPoolOptions.set_ceil_mode ceil_mode (MaxPoolOptions.new 3 k)) ;;
  opts <- match stride with
          | Some _ =>
              v <- ExpandingArray_of 3 (ArrayRef stride strideLength) ;;
              ret (MaxPoolOptions.set_stride v opts)
          | None => ret opts
          end ;;
  opts <- match padding with
          | Some _ =>
              v <- ExpandingArray_of 3 (ArrayRef padding paddingLength) ;;
              ret (MaxPoolOptions.set_padding v opts)
          | None => ret opts
          end ;;
  opts <- match dilation with
          | Some _ =>
              v <- ExpandingArray_of 3 (ArrayRef dilation dilationLength) ;;
              ret (MaxPoolOptions.set_dilation v opts)
          | None => ret opts
          end ;;
  ret (OMaxPool opts).

Definition THSNN_MaxPool3d_ctor (kernelSize : int64_ptr) (kernelSizeLength : Z)
    (stride : int64_ptr) (strideLength : Z)
    (padding : int64_ptr) (paddingLength : Z)
    (dilation : int64_ptr) (dilationLength : Z)
    (ceil_mode : bool) (outAsAnyModule : handle) : M NNModule :=
  CATCH_RETURN_NNModule
    (opts <- MaxPool3d_opts kernelSize kernelSizeLength stride strideLength
               padding paddingLength dilation dilationLength ceil_mode ;;
     create_module (MaxPoolNd 3) opts outAsAnyModule).

Definition THSNN_MaxPool3d_forward (module : NNModule) (tensor : Tensor) :=
  CATCH_TENSOR (module_forward (MaxPoolNd 3) module tensor).

Definition THSNN_MaxPool3d_forward_with_indices (module : NNModule)
    (tensor : Tensor) (indices : handle) : M Tensor :=
  res <- CATCH (None, None)
           (module_forward_with_indices (MaxPoolNd 3) module tensor) ;;
  i <- ResultTensor (snd res) ;;
  _ <- store indices i ;;
  ResultTensor (fst res).

(** ** Padding modules *)

(** The padding options take an [ExpandingArray] with one entry per padded
    side (two per spatial axis); the boundary passes a single width. *)
Definition THSNN_ZeroPad2d_ctor (padding : Z) (outAsAnyModule : handle)
    : M NNModule :=
  CATCH_RETURN_NNModule
    (opts <- ret (OPad (ExpandingArray 4 padding)) ;;
     create_module ZeroPad2d opts outAsAnyModule).

Definition THSNN_ZeroPad2d_forward (module : NNModule) (tensor : Tensor) :=
  CATCH_TENSOR (module_forward ZeroPad2d module tensor).

Definition THSNN_ConstantPad1d_ctor (value : Z) (padding : Z)
    (outAsAnyModule : handle) : M NNModule :=
  CATCH_RETURN_NNModule
    (opts <- ret (OConstantPad (ExpandingArray 2 padding) value) ;;
     create_module (ConstantPadNd 1) opts outAsAnyModule).

Definition THSNN_ConstantPad1d_forward (module : NNModule) (tensor : Tensor) :=
  CATCH_TENSOR (module_forward (ConstantPadNd 1) module tensor).

Definition THSNN_ConstantPad2d_ctor (value : Z) (padding : Z)
    (outAsAnyModule : handle) : M NNModule :=
  CATCH_RETURN_NNModule
    (opts <- ret (OConstantPad (ExpandingArray 4 padding) value) ;;
     create_module (ConstantPadNd 2) opts outAsAnyModule).

Definition THSNN_ConstantPad2d_forward (module : NNModule) (tensor : Tensor) :=
  CATCH_TENSOR (module_forward (ConstantPadNd 2) module tensor).

Definition THSNN_ConstantPad3d_ctor (value : Z) (padding : Z)
    (outAsAnyModule : handle) : M NNModule :=
  CATCH_RETURN_NNModule
    (opts <- ret (OConstantPad (ExpandingArray 6 padding) value) ;;
     create_module (ConstantPadNd 3) opts outAsAnyModule).

Definition THSNN_ConstantPad3d_forward (module : NNModule) (tensor : Tensor) :=
  CATCH_TENSOR (module_forward (ConstantPadNd 3) module tensor).

Definition THSNN_ReplicationPad1d_ctor (padding : Z) (outAsAnyModule : handle)
    : M NNModule :=
  CATCH_RETURN_NNModule
    (opts <- ret (OPad (ExpandingArray 2 padding)) ;;
     create_module (ReplicationPadNd 1) opts outAsAnyModule).

Definition THSNN_ReplicationPad1d_forward (module : NNModule) (tensor : Tensor) :=
  CATCH_TENSOR (module_forward (ReplicationPadNd 1) module tensor).

Definition THSNN_ReplicationPad2d_ctor (padding : Z) (outAsAnyModule : handle)
    : M NNModule :=
  CATCH_RETURN_NNModule
    (opts <- ret (OPad (ExpandingArray 4 padding)) ;;
     create_module (ReplicationPadNd 2) opts outAsAnyModule).

Definition THSNN_ReplicationPad2d_forward (module : NNModule) (tensor : Tensor) :=
  CATCH_TENSOR (module_forward (ReplicationPadNd 2) module tensor).

Definition THSNN_ReplicationPad3d_ctor (padding : Z) (outAsAnyModule : handle)
    : M NNModule :=
  CATCH_RETURN_NNModule
    (opts <- ret (OPad (ExpandingArray 6 padding)) ;;
     create_module (ReplicationPadNd 3) opts outAsAnyModule).

Definition THSNN_ReplicationPad3d_forward (module : NNModule) (tensor : Tensor) :=
  CATCH_TENSOR (module_forward (ReplicationPadNd 3) module tensor).

Definition THSNN_ReflectionPad1d_ctor (padding : Z) (outAsAnyModule : handle)
    : M NNModule :=
  CATCH_RETURN_NNModule
    (opts <- ret (OPad (ExpandingArray 2 padding)) ;;
     create_module (ReflectionPadNd 1) opts outAsAnyModule).

Definition THSNN_ReflectionPad1d_forward (module : NNModule) (tensor : Tensor) :=
  CATCH_TENSOR (module_forward (ReflectionPadNd 1) module tensor).

Definition THSNN_ReflectionPad2d_ctor (padding : Z) (outAsAnyModule : handle)
    : M NNModule :=
  CATCH_RETURN_NNModule
    (opts <- ret (OPad (ExpandingArray 4 padding)) ;;
     create_module (ReflectionPadNd 2) opts outAsAnyModule).

Definition THSNN_ReflectionPad2d_forward (module : NNModule) (tensor : Tensor) :=
  CATCH_TENSOR (module_forward (ReflectionPadNd 2) module tensor).

Definition THSNN_ReflectionPad3d_ctor (padding : Z) (outAsAnyModule : handle)
    : M NNModule :=
  CATCH_RETURN_NNModule
    (opts <- ret (OPad (ExpandingArray 6 padding)) ;;
     create_module (ReflectionPadNd 3) opts outAsAnyModule).

Definition THSNN_ReflectionPad3d_forward (module : NNModule) (tensor : Tensor) :=
  CATCH_TENSOR (module_forward (ReflectionPadNd 3) module tensor).

(** ** Convolutions *)

(** Each convolution constructor first chooses the value of the padding
    slot (outside the catch boundary, nothing there can raise), then builds
    the options, applies the padding mode and creates the module under the
    boundary. *)

Definition Conv1d_padd (padding : Z) : padding_t :=
  let padd := Explicit (ExpandingArray 1 padding) in
  if padding =? -1 then kSame else padd.

Definition Conv1d_opts (inputChannel outputChannel kernelSize stride : Z)
    (padd : padding_t) (dilation groups : Z) (bias : bool) : ConvOptions.t :=
  let opts := ConvOptions.new 1 inputChannel outputChannel
                (ExpandingArray 1 kernelSize) in
  let opts := ConvOptions.set_stride (ExpandingArray 1 stride) opts in
  let opts := ConvOptions.set_padding padd opts in
  let opts := ConvOptions.set_dilation (ExpandingArray 1 dilation) opts in
  let opts := ConvOptions.set_groups groups opts in
  ConvOptions.set_bias bias opts.

Definition THSNN_Conv1d_ctor (inputChannel outputChannel kernelSize stride
    padding dilation paddingMode groups : Z) (bias : bool)
    (outAsAnyModule : handle) : M NNModule :=
  let padd := Conv1d_padd padding in
  CATCH_RETURN_NNModule
    (opts <- ret (Conv1d_opts inputChannel outputChannel kernelSize stride
                    padd dilation groups bias) ;;
     opts <- ret (ApplyPaddingMode opts paddingMode) ;;
     create_module (ConvNd 1) (OConv opts) outAsAnyModule).

Definition THSNN_Conv1d_forward (module : NNModule) (tensor : Tensor) :=
  CATCH_TENSOR (module_forward (ConvNd 1) module tensor).
Definition THSNN_Conv1d_bias (module : NNModule) : M Tensor :=
  get_bias (ConvNd 1) module.
Definition THSNN_Conv1d_set_bias (module : NNModule) (bias : Tensor) : M unit :=
  set_bias (ConvNd 1) module bias.
Definition THSNN_Conv1d_weight (module : NNModule) : M Tensor :=
  get_weight (ConvNd 1) module.
Definition THSNN_Conv1d_set_weight (module : NNModule) (weight : Tensor) : M unit :=
  set_weight (ConvNd 1) module weight.

Definition Conv2d_padd (padding : Z) : padding_t :=
  if padding =? -1 then kSame
  else if padding =? 0 then kValid
  else Explicit (ExpandingArray 2 padding).

Definition Conv2d_opts (inputChannel outputChannel kernelSize stride : Z)
    (padd : padding_t) (dilation groups : Z) (bias : bool) : ConvOptions.t :=
  let opts := ConvOptions.new 2 inputChannel outputChannel
                (ExpandingArray 2 kernelSize) in
  let opts := ConvOptions.set_stride (ExpandingArray 2 stride) opts in
  let opts := ConvOptions.set_padding padd opts in
  let opts := ConvOptions.set_dilation (ExpandingArray 2 dilation) opts in
  let opts := ConvOptions.set_groups groups opts in
  ConvOptions.set_bias bias opts.

Definition THSNN_Conv2d_ctor (inputChannel outputChannel kernelSize stride
    padding dilation paddingMode groups : Z) (bias : bool)
    (outAsAnyModule : handle) : M NNModule :=
  let padd := Conv2d_padd padding in
  CATCH_RETURN_NNModule
    (opts <- ret (Conv2d_opts inputChannel outputChannel kernelSize stride
                    padd dilation groups bias) ;;
     opts <- ret (ApplyPaddingMode opts paddingMode) ;;
     create_module (ConvNd 2) (OConv opts) outAsAnyModule).

(** A braced list [{ x, y }] converts to an [ExpandingArray<2>] holding
    exactly these values (its size check cannot fail). *)
Definition Conv2d_1_padd (paddingX paddingY : Z) : padding_t :=
  if paddingX =? -1 then kSame
  else if paddingX =? 0 then kValid
  else Explicit [paddingX; paddingY].

Definition Conv2d_1_opts (inputChannel outputChannel kernelX kernelY
    strideX strideY : Z) (padd : padding_t)
    (dilationX dilationY groups : Z) (bias : bool) : ConvOptions.t :=
  let opts := ConvOptions.new 2 inputChannel outputChannel
                [kernelX; kernelY] in
  let opts := ConvOptions.set_stride [strideX; strideY] opts in
  let opts := ConvOptions.set_padding padd opts in
  let opts := ConvOptions.set_dilation [dilationX; dilationY] opts in
  let opts := ConvOptions.set_groups groups opts in
  ConvOptions.set_bias bias opts.

Definition THSNN_Conv2d_ctor_1 (inputChannel outputChannel kernelX kernelY
    strideX strideY paddingX paddingY dilationX dilationY
    paddingMode groups : Z) (bias : bool)
    (outAsAnyModule : handle) : M NNModule :=
  let padd := Conv2d_1_padd paddingX paddingY in
  CATCH_RETURN_NNModule
    (opts <- ret (Conv2d_1_opts inputChannel outputChannel kernelX kernelY
                    strideX strideY padd dilationX dilationY groups bias) ;;
     opts <- ret (ApplyPaddingMode opts paddingMode) ;;
     create_module (ConvNd 2) (OConv opts) outAsAnyModule).

Definition THSNN_Conv2d_forward (module : NNModule) (tensor : Tensor) :=
  CATCH_TENSOR (module_forward (ConvNd 2) module tensor).
Definition THSNN_Conv2d_bias (module : NNModule) : M Tensor :=
  get_bias (ConvNd 2) module.
Definition THSNN_Conv2d_set_bias (module : NNModule) (bias : Tensor) : M unit :=
  set_bias (ConvNd 2) module bias.
Definition THSNN_Conv2d_weight (module : NNModule) : M Tensor :=
  get_weight (ConvNd 2) module.
Definition THSNN_Conv2d_set_weight (module : NNModule) (weight : Tensor) : M unit :=
  set_weight (ConvNd 2) module weight.

Definition Conv3d_padd (padding : Z) : padding_t :=
  if padding =? -1 then kSame
  else if padding =? 0 then kValid
  else Explicit (ExpandingArray 3 padding).

Definition Conv3d_opts (inputChannel outputChannel kernelSize stride : Z)
    (padd : padding_t) (dilation groups : Z) (bias : bool) : ConvOptions.t :=
  let opts := ConvOptions.new 3 inputChannel outputChannel
                (ExpandingArray 3 kernelSize) in
  let opts := ConvOptions.set_stride (ExpandingArray 3 stride) opts in
  let opts := ConvOptions.set_padding padd opts in
  let opts := ConvOptions.set_dilation (ExpandingArray 3 dilation) opts in
  let opts := ConvOptions.set_groups groups opts in
  ConvOptions.set_bias bias opts.

Definition THSNN_Conv3d_ctor (inputChannel outputChannel kernelSize stride
    padding dilation paddingMode groups : Z) (bias : bool)
    (outAsAnyModule : handle) : M NNModule :=
  let padd := Conv3d_padd padding in
  CATCH_RETURN_NNModule
    (opts <- ret (Conv3d_opts inputChannel outputChannel kernelSize stride
                    padd dilation groups bias) ;;
     opts <- ret (ApplyPaddingMode opts paddingMode) ;;
     create_module (ConvNd 3) (OConv opts) outAsAnyModule).

Definition Conv3d_1_padd (paddingX paddingY paddingZ : Z) : padding_t :=
  if paddingX =? -1 then kSame
  else if paddingX =? 0 then kValid
  else Explicit [paddingX; paddingY; paddingZ].

Definition Conv3d_1_opts (inputChannel outputChannel kernelX kernelY kernelZ
    strideX strideY strideZ : Z) (padd : padding_t)
    (dilationX dilationY dilationZ groups : Z) (bias : bool)
    : ConvOptions.t :=
  let opts := ConvOptions.new 3 inputChannel outputChannel
                [kernelX; kernelY; kernelZ] in
  let opts := ConvOptions.set_stride [strideX; strideY; strideZ] opts in
  let opts := ConvOptions.set_padding padd opts in
  let opts := ConvOptions.set_dilation [dilationX; dilationY; dilationZ] opts in
  let opts := ConvOptions.set_groups groups opts in
  ConvOptions.set_bias bias opts.

Definition THSNN_Conv3d_ctor_1 (inputChannel outputChannel
    kernelX kernelY kernelZ strideX strideY strideZ
    paddingX paddingY paddingZ dilationX dilationY dilationZ
    paddingMode groups : Z) (bias : bool)
    (outAsAnyModule : handle) : M NNModule :=
  let padd := Conv3d_1_padd paddingX paddingY paddingZ in
  CATCH_RETURN_NNModule
    (opts <- ret (Conv3d_1_opts inputChannel outputChannel
                    kernelX kernelY kernelZ strideX strideY strideZ
                    padd dilationX dilationY dilationZ groups bias) ;;
     opts <- ret (ApplyPaddingMode opts paddingMode) ;;
     create_module (ConvNd 3) (OConv opts) outAsAnyModule).

Definition THSNN_Conv3d_bias (module : NNModule) : M Tensor :=
  get_bias (ConvNd 3) module.
Definition THSNN_Conv3d_set_bias (module : NNModule) (bias : Tensor) : M unit :=
  set_bias (ConvNd 3) module bias.
Definition THSNN_Conv3d_forward (module : NNModule) (tensor : Tensor) :=
  CATCH_TENSOR (module_forward (ConvNd 3) module tensor).
Definition THSNN_Conv3d_weight (module : NNModule) : M Tensor :=
  get_weight (ConvNd 3) module.
Definition THSNN_Conv3d_set_weight (module : NNModule) (weight : Tensor) : M unit :=
  set_weight (ConvNd 3) module weight.

(** ** Transposed convolutions *)

(** The three transposed constructors have the same body up to the
    dimension [D]. Their padding argument goes to the options as it is:
    there is no sentinel test. *)
Definition ConvTranspose_opts (D : nat) (inputChannel outputChannel
    kernelSize stride padding output_padding dilation groups : Z)
    (bias : bool) : ConvTransposeOptions.t :=
  let opts := ConvTransposeOptions.new D inputChannel outputChannel
                (ExpandingArray D kernelSize) in
  let opts := ConvTransposeOptions.set_stride (ExpandingArray D stride) opts in
  let opts := ConvTransposeOptions.set_padding (ExpandingArray D padding) opts in
  let opts := ConvTransposeOptions.set_dilation (ExpandingArray D dilation) opts in
  let opts := ConvTransposeOptions.set_groups groups opts in
  let opts := ConvTransposeOptions.set_bias bias opts in
  ConvTransposeOptions.set_output_padding (ExpandingArray D output_padding) opts.

Definition THSNN_ConvTranspose1d_ctor (inputChannel outputChannel kernelSize
    stride padding output_padding dilation paddingMode groups : Z)
    (bias : bool) (outAsAnyModule : handle) : M NNModule :=
  CATCH_RETURN_NNModule
    (opts <- ret (ConvTranspose_opts 1 inputChannel outputChannel kernelSize
                    stride padding output_padding dilation groups bias) ;;
     opts <- ret (ApplyPaddingMode opts paddingMode) ;;
     create_module (ConvTransposeNd 1) (OConvTranspose opts) outAsAnyModule).

Definition THSNN_ConvTranspose1d_forward (module : NNModule) (tensor : Tensor) :=
  CATCH_TENSOR (module_forward (ConvTransposeNd 1) module tensor).
Definition THSNN_ConvTranspose1d_bias (module : NNModule) : M Tensor :=
  get_bias (ConvTransposeNd 1) module.
Definition THSNN_ConvTranspose1d_set_bias (module : NNModule) (bias : Tensor)
    : M unit :=
  set_bias (ConvTransposeNd 1) module bias.
Definition THSNN_ConvTranspose1d_weight (module : NNModule) : M Tensor :=
  get_weight (ConvTransposeNd 1) module.
Definition THSNN_ConvTranspose1d_set_weight (module : NNModule)
    (weight : Tensor) : M unit :=
  set_weight (ConvTransposeNd 1) module weight.

Definition THSNN_ConvTranspose2d_ctor (inputChannel outputChannel kernelSize
    stride padding output_padding dilation paddingMode groups : Z)
    (bias : bool) (outAsAnyModule : handle) : M NNModule :=
  CATCH_RETURN_NNModule
    (opts <- ret (ConvTranspose_opts 2 inputChannel outputChannel kernelSize
                    stride padding output_padding dilation groups bias) ;;
     opts <- ret (ApplyPaddingMode opts paddingMode) ;;
     create_module (ConvTransposeNd 2) (OConvTranspose opts) outAsAnyModule).

Definition THSNN_ConvTranspose2d_forward (module : NNModule) (tensor : Tensor) :=
  CATCH_TENSOR (module_forward (ConvTransposeNd 2) module tensor).
Definition THSNN_ConvTranspose2d_bias (module : NNModule) : M Tensor :=
  get_bias (ConvTransposeNd 2) module.
Definition THSNN_ConvTranspose2d_set_bias (module : NNModule) (bias : Tensor)
    : M unit :=
  set_bias (ConvTransposeNd 2) module bias.
Definition THSNN_ConvTranspose2d_weight (module : NNModule) : M Tensor :=
  get_weight (ConvTransposeNd 2) module.
Definition THSNN_ConvTranspose2d_set_weight (module : NNModule)
    (weight : Tensor) : M unit :=
  set_weight (ConvTransposeNd 2) module weight.

Definition THSNN_ConvTranspose3d_ctor (inputChannel outputChannel kernelSize
    stride padding output_padding dilation paddingMode groups : Z)
    (bias : bool) (outAsAnyModule : handle) : M NNModule :=
  CATCH_RETURN_NNModule
    (opts <- ret (ConvTranspose_opts 3 inputChannel outputChannel kernelSize
                    stride padding output_padding dilation groups bias) ;;
     opts <- ret (ApplyPaddingMode opts paddingMode) ;;
     create_module (ConvTransposeNd 3) (OConvTranspose opts) outAsAnyModule).

Definition THSNN_ConvTranspose3d_forward (module : NNModule) (tensor : Tensor) :=
  CATCH_TENSOR (module_forward (ConvTransposeNd 3) module tensor).
Definition THSNN_ConvTranspose3d_bias (module : NNModule) : M Tensor :=
  get_bias (ConvTransposeNd 3) module.
Definition THSNN_ConvTranspose3d_set_bias (module : NNModule) (bias : Tensor)
    : M unit :=
  set_bias (ConvTransposeNd 3) module bias.
Definition THSNN_ConvTranspose3d_weight (module : NNModule) : M Tensor :=
  get_weight (ConvTransposeNd 3) module.
Definition THSNN_ConvTranspose3d_set_weight (module : NNModule)
    (weight : Tensor) : M unit :=
  set_weight (ConvTransposeNd 3) module weight.

(** ** The exported functions, as data *)

(** To state a property of every constructor at once, a call of a
    convolution constructor is reified with its arguments (the
    [outAsAnyModule] slot apart). *)
Inductive conv_ctor : Type :=
  | Call_Conv1d (inputChannel outputChannel kernelSize stride padding
      dilation paddingMode groups : Z) (bias : bool)
  | Call_Conv2d (inputChannel outputChannel kernelSize stride padding
      dilation paddingMode groups : Z) (bias : bool)
  | Call_Conv2d_1 (inputChannel outputChannel kernelX kernelY
      strideX strideY paddingX paddingY dilationX dilationY
      paddingMode groups : Z) (bias : bool)
  | Call_Conv3d (inputChannel outputChannel kernelSize stride padding
      dilation paddingMode groups : Z) (bias : bool)
  | Call_Conv3d_1 (inputChannel outputChannel kernelX kernelY kernelZ
      strideX strideY strideZ paddingX paddingY paddingZ
      dilationX dilationY dilationZ paddingMode groups : Z) (bias : bool)
  | Call_ConvTranspose1d (inputChannel outputChannel kernelSize stride
      padding output_padding dilation paddingMode groups : Z) (bias : bool)
  | Call_ConvTranspose2d (inputChannel outputChannel kernelSize stride
      padding output_padding dilation paddingMode groups : Z) (bias : bool)
  | Call_ConvTranspose3d (inputChannel outputChannel kernelSize stride
      padding output_padding dilation paddingMode groups : Z) (bias : bool).

Definition conv_invoke (c : conv_ctor) (outAsAnyModule : handle) : M NNModule :=
  match c with
  | Call_Conv1d i o k s p d pm g b =>
      THSNN_Conv1d_ctor i o k s p d pm g b outAsAnyModule
  | Call_Conv2d i o k s p d pm g b =>
      THSNN_Conv2d_ctor i o k s p d pm g b outAsAnyModule
  | Call_Conv2d_1 i o kx ky sx sy px py dx dy pm g b =>
      THSNN_Conv2d_ctor_1 i o kx ky sx sy px py dx dy pm g b outAsAnyModule
  | Call_Conv3d i o k s p d pm g b =>
      THSNN_Conv3d_ctor i o k s p d pm g b outAsAnyModule
  | Call_Conv3d_1 i o kx ky kz sx sy sz px py pz dx dy dz pm g b =>
      THSNN_Conv3d_ctor_1 i o kx ky kz sx sy sz px py pz dx dy dz pm g b
        outAsAnyModule
  | Call_ConvTranspose1d i o k s p op d pm g b =>
      THSNN_ConvTranspose1d_ctor i o k s p op d pm g b outAsAnyModule
  | Call_ConvTranspose2d i o k s p op d pm g b =>
      THSNN_ConvTranspose2d_ctor i o k s p op d pm g b outAsAnyModule
  | Call_ConvTranspose3d i o k s p op d pm g b =>
      THSNN_ConvTranspose3d_ctor i o k s p op d pm g b outAsAnyModule
  end.

Definition conv_kind (c : conv_ctor) : ModuleKind :=
  match c with
  | Call_Conv1d _ _ _ _ _ _ _ _ _ => ConvNd 1
  | Call_Conv2d _ _ _ _ _ _ _ _ _ => ConvNd 2
  | Call_Conv2d_1 _ _ _ _ _ _ _ _ _ _ _ _ _ => ConvNd 2
  | Call_Conv3d _ _ _ _ _ _ _ _ _ => ConvNd 3
  | Call_Conv3d_1 _ _ _ _ _ _ _ _ _ _ _ _ _ _ _ _ _ => ConvNd 3
  | Call_ConvTranspose1d _ _ _ _ _ _ _ _ _ _ => ConvTransposeNd 1
  | Call_ConvTranspose2d _ _ _ _ _ _ _ _ _ _ => ConvTransposeNd 2
  | Call_ConvTranspose3d _ _ _ _ _ _ _ _ _ _ => ConvTransposeNd 3
  end.

(** The padding argument ([padding], or [paddingX] of a per-axis
    overload). *)
Definition conv_padding (c : conv_ctor) : Z :=
  match c with
  | Call_Conv1d _ _ _ _ p _ _ _ _ => p
  | Call_Conv2d _ _ _ _ p _ _ _ _ => p
  | Call_Conv2d_1 _ _ _ _ _ _ px _ _ _ _ _ _ => px
  | Call_Conv3d _ _ _ _ p _ _ _ _ => p
  | Call_Conv3d_1 _ _ _ _ _ _ _ _ px _ _ _ _ _ _ _ _ => px
  | Call_ConvTranspose1d _ _ _ _ p _ _ _ _ _ => p
  | Call_ConvTranspose2d _ _ _ _ p _ _ _ _ _ => p
  | Call_ConvTranspose3d _ _ _ _ p _ _ _ _ _ => p
  end.

Definition conv_paddingMode (c : conv_ctor) : Z :=
  match c with
  | Call_Conv1d _ _ _ _ _ _ pm _ _ => pm
  | Call_Conv2d _ _ _ _ _ _ pm _ _ => pm
  | Call_Conv2d_1 _ _ _ _ _ _ _ _ _ _ pm _ _ => pm
  | Call_Conv3d _ _ _ _ _ _ pm _ _ => pm
  | Call_Conv3d_1 _ _ _ _ _ _ _ _ _ _ _ _ _ _ pm _ _ => pm
  | Call_ConvTranspose1d _ _ _ _ _ _ _ pm _ _ => pm
  | Call_ConvTranspose2d _ _ _ _ _ _ _ pm _ _ => pm
  | Call_ConvTranspose3d _ _ _ _ _ _ _ pm _ _ => pm
  end.

(** The options record as it stands before [ApplyPaddingMode] runs ... *)
Definition conv_built (c : conv_ctor) : ModuleOptions :=
  match c with
  | Call_Conv1d i o k s p d _ g b =>
      OConv (Conv1d_opts i o k s (Conv1d_padd p) d g b)
  | Call_Conv2d i o k s p d _ g b =>
      OConv (Conv2d_opts i o k s (Conv2d_padd p) d g b)
  | Call_Conv2d_1 i o kx ky sx sy px py dx dy _ g b =>
      OConv (Conv2d_1_opts i o kx ky sx sy (Conv2d_1_padd px py) dx dy g b)
  | Call_Conv3d i o k s p d _ g b =>
      OConv (Conv3d_opts i o k s (Conv3d_padd p) d g b)
  | Call_Conv3d_1 i o kx ky kz sx sy sz px py pz dx dy dz _ g b =>
      OConv (Conv3d_1_opts i o kx ky kz sx sy sz
               (Conv3d_1_padd px py pz) dx dy dz g b)
  | Call_ConvTranspose1d i o k s p op d _ g b =>
      OConvTranspose (ConvTranspose_opts 1 i o k s p op d g b)
  | Call_ConvTranspose2d i o k s p op d _ g b =>
      OConvTranspose (ConvTranspose_opts 2 i o k s p op d g b)
  | Call_ConvTranspose3d i o k s p op d _ g b =>
      OConvTranspose (ConvTranspose_opts 3 i o k s p op d g b)
  end.

Definition options_ApplyPaddingMode (o : ModuleOptions) (paddingMode : Z)
    : ModuleOptions :=
  match o with
  | OConv o => OConv (ApplyPaddingMode o paddingMode)
  | OConvTranspose o => OConvTranspose (ApplyPaddingMode o paddingMode)
  | _ => o
  end.

(** ... and as it is handed to [create_module]. *)
Definition conv_options (c : conv_ctor) : ModuleOptions :=
  options_ApplyPaddingMode (conv_built c) (conv_paddingMode c).

(** The two slots of a convolution options record the padding arguments
    end up in. A transposed convolution holds a plain width. *)
Definition options_padding (o : ModuleOptions) : option padding_t :=
  match o with
  | OConv o => Some (ConvOptions.padding o)
  | OConvTranspose o => Some (Explicit (ConvTransposeOptions.padding o))
  | _ => None
  end.

Definition options_padding_mode (o : ModuleOptions) : option padding_mode_t :=
  match o with
  | OConv o => Some (ConvOptions.padding_mode o)
  | OConvTranspose o => Some (ConvTransposeOptions.padding_mode o)
  | _ => None
  end.

(** A call of any constructor of the file. *)
Inductive ctor_call : Type :=
  | Call_AvgPool1d (kernelSize stride : int64_ptr)
  | Call_AvgPool2d (kernelSize : int64_ptr) (kernelSizeLength : Z)
      (stride : int64_ptr) (strideLength : Z)
  | Call_AvgPool3d (kernelSize : int64_ptr) (kernelSizeLength : Z)
      (stride : int64_ptr) (strideLength : Z)
  | Call_AdaptiveAvgPool1d (kernelSize : int64_ptr) (kernelSizeLength : Z)
  | Call_AdaptiveAvgPool2d (kernelSize : int64_ptr) (kernelSizeLength : Z)
  | Call_AdaptiveAvgPool3d (kernelSize : int64_ptr) (kernelSizeLength : Z)
  | Call_AdaptiveMaxPool1d (kernelSize : int64_ptr) (kernelSizeLength : Z)
  | Call_AdaptiveMaxPool2d (kernelSize : int64_ptr) (kernelSizeLength : Z)
  | Call_AdaptiveMaxPool3d (kernelSize : int64_ptr) (kernelSizeLength : Z)
  | Call_MaxPool1d (kernelSize stride padding dilation : int64_ptr)
      (ceil_mode : bool)
  | Call_MaxPool2d (kernelSize : int64_ptr) (kernelSizeLength : Z)
      (stride : int64_ptr) (strideLength : Z)
      (padding : int64_ptr) (paddingLength : Z)
      (dilation : int64_ptr) (dilationLength : Z) (ceil_mode : bool)
  | Call_MaxPool3d (kernelSize : int64_ptr) (kernelSizeLength : Z)
      (stride : int64_ptr) (strideLength : Z)
      (padding : int64_ptr) (paddingLength : Z)
      (dilation : int64_ptr) (dilationLength : Z) (ceil_mode : bool)
  | Call_ZeroPad2d (padding : Z)
  | Call_ConstantPad1d (value padding : Z)
  | Call_ConstantPad2d (value padding : Z)
  | Call_ConstantPad3d (value padding : Z)
  | Call_ReplicationPad1d (padding : Z)
  | Call_ReplicationPad2d (padding : Z)
  | Call_ReplicationPad3d (padding : Z)
  | Call_ReflectionPad1d (padding : Z)
  | Call_ReflectionPad2d (padding : Z)
  | Call_ReflectionPad3d (padding : Z)
  | Call_Conv (c : conv_ctor).

Definition invoke (c : ctor_call) (outAsAnyModule : handle) : M NNModule :=
  match c with
  | Call_AvgPool1d k s => THSNN_AvgPool1d_ctor k s outAsAnyModule
  | Call_AvgPool2d k kl s sl => THSNN_AvgPool2d_ctor k kl s sl outAsAnyModule
  | Call_AvgPool3d k kl s sl => THSNN_AvgPool3d_ctor k kl s sl outAsAnyModule
  | Call_AdaptiveAvgPool1d k kl => THSNN_AdaptiveAvgPool1d_ctor k kl outAsAnyModule
  | Call_AdaptiveAvgPool2d k kl => THSNN_AdaptiveAvgPool2d_ctor k kl outAsAnyModule
  | Call_AdaptiveAvgPool3d k kl => THSNN_AdaptiveAvgPool3d_ctor k kl outAsAnyModule
  | Call_AdaptiveMaxPool1d k kl => THSNN_AdaptiveMaxPool1d_ctor k kl outAsAnyModule
  | Call_AdaptiveMaxPool2d k kl => THSNN_AdaptiveMaxPool2d_ctor k kl outAsAnyModule
  | Call_AdaptiveMaxPool3d k kl => THSNN_AdaptiveMaxPool3d_ctor k kl outAsAnyModule
  | Call_MaxPool1d k s p d cm => THSNN_MaxPool1d_ctor k s p d cm outAsAnyModule
  | Call_MaxPool2d k kl s sl p pl d dl cm =>
      THSNN_MaxPool2d_ctor k kl s sl p pl d dl cm outAsAnyModule
  | Call_MaxPool3d k kl s sl p pl d dl cm =>
      THSNN_MaxPool3d_ctor k kl s sl p pl d dl cm outAsAnyModule
  | Call_ZeroPad2d p => THSNN_ZeroPad2d_ctor p outAsAnyModule
  | Call_ConstantPad1d v p => THSNN_ConstantPad1d_ctor v p outAsAnyModule
  | Call_ConstantPad2d v p => THSNN_ConstantPad2d_ctor v p outAsAnyModule
  | Call_ConstantPad3d v p => THSNN_ConstantPad3d_ctor v p outAsAnyModule
  | Call_ReplicationPad1d p => THSNN_ReplicationPad1d_ctor p outAsAnyModule
  | Call_ReplicationPad2d p => THSNN_ReplicationPad2d_ctor p outAsAnyModule
  | Call_ReplicationPad3d p => THSNN_ReplicationPad3d_ctor p outAsAnyModule
  | Call_ReflectionPad1d p => THSNN_ReflectionPad1d_ctor p outAsAnyModule
  | Call_ReflectionPad2d p => THSNN_ReflectionPad2d_ctor p outAsAnyModule
  | Call_ReflectionPad3d p => THSNN_ReflectionPad3d_ctor p outAsAnyModule
  | Call_Conv c => conv_invoke c outAsAnyModule
  end.

(** The module type a constructor instantiates [create_module] at. *)
Definition call_kind (c : ctor_call) : ModuleKind :=
  match c with
  | Call_AvgPool1d _ _ => AvgPoolNd 1
  | Call_AvgPool2d _ _ _ _ => AvgPoolNd 2
  | Call_AvgPool3d _ _ _ _ => AvgPoolNd 3
  | Call_AdaptiveAvgPool1d _ _ => AdaptiveAvgPoolNd 1
  | Call_AdaptiveAvgPool2d _ _ => AdaptiveAvgPoolNd 2
  | Call_AdaptiveAvgPool3d _ _ => AdaptiveAvgPoolNd 3
  | Call_AdaptiveMaxPool1d _ _ => AdaptiveMaxPoolNd 1
  | Call_AdaptiveMaxPool2d _ _ => AdaptiveMaxPoolNd 2
  | Call_AdaptiveMaxPool3d _ _ => AdaptiveMaxPoolNd 3
  | Call_MaxPool1d _ _ _ _ _ => MaxPoolNd 1
  | Call_MaxPool2d _ _ _ _ _ _ _ _ _ => MaxPoolNd 2
  | Call_MaxPool3d _ _ _ _ _ _ _ _ _ => MaxPoolNd 3
  | Call_ZeroPad2d _ => ZeroPad2d
  | Call_ConstantPad1d _ _ => ConstantPadNd 1
  | Call_ConstantPad2d _ _ => ConstantPadNd 2
  | Call_ConstantPad3d _ _ => ConstantPadNd 3
  | Call_ReplicationPad1d _ => ReplicationPadNd 1
  | Call_ReplicationPad2d _ => ReplicationPadNd 2
  | Call_ReplicationPad3d _ => ReplicationPadNd 3
  | Call_ReflectionPad1d _ => ReflectionPadNd 1
  | Call_ReflectionPad2d _ => ReflectionPadNd 2
  | Call_ReflectionPad3d _ => ReflectionPadNd 3
  | Call_Conv c => conv_kind c
  end.

(** The part of a constructor's guarded statement that builds the options
    record ... *)
Definition call_opts (c : ctor_call) : M ModuleOptions :=
  match c with
  | Call_AvgPool1d k s => AvgPool1d_opts k s
  | Call_AvgPool2d k kl s sl => AvgPool2d_opts k kl s sl
  | Call_AvgPool3d k kl s sl => AvgPool3d_opts k kl s sl
  | Call_AdaptiveAvgPool1d k kl => AdaptivePool_opts 1 k kl
  | Call_AdaptiveAvgPool2d k kl => AdaptivePool_opts 2 k kl
  | Call_AdaptiveAvgPool3d k kl => AdaptivePool_opts 3 k kl
  | Call_AdaptiveMaxPool1d k kl => AdaptivePool_opts 1 k kl
  | Call_AdaptiveMaxPool2d k kl => AdaptivePool_opts 2 k kl
  | Call_AdaptiveMaxPool3d k kl => AdaptivePool_opts 3 k kl
  | Call_MaxPool1d k s p d cm => MaxPool1d_opts k s p d cm
  | Call_MaxPool2d k kl s sl p pl d dl cm =>
      MaxPool2d_opts k kl s sl p pl d dl cm
  | Call_MaxPool3d k kl s sl p pl d dl cm =>
      MaxPool3d_opts k kl s sl p pl d dl cm
  | Call_ZeroPad2d p => ret (OPad (ExpandingArray 4 p))
  | Call_ConstantPad1d v p => ret (OConstantPad (ExpandingArray 2 p) v)
  | Call_ConstantPad2d v p => ret (OConstantPad (ExpandingArray 4 p) v)
  | Call_ConstantPad3d v p => ret (OConstantPad (ExpandingArray 6 p) v)
  | Call_ReplicationPad1d p => ret (OPad (ExpandingArray 2 p))
  | Call_ReplicationPad2d p => ret (OPad (ExpandingArray 4 p))
  | Call_ReplicationPad3d p => ret (OPad (ExpandingArray 6 p))
  | Call_ReflectionPad1d p => ret (OPad (ExpandingArray 2 p))
  | Call_ReflectionPad2d p => ret (OPad (ExpandingArray 4 p))
  | Call_ReflectionPad3d p => ret (OPad (ExpandingArray 6 p))
  | Call_Conv c => ret (conv_options c)
  end.

(** ... and the whole statement under the catch boundary: build the
    options, construct the module. *)
Definition ctor_stmt (c : ctor_call) (outAsAnyModule : handle) : M NNModule :=
  opts <- call_opts c ;;
  create_module (call_kind c) opts outAsAnyModule.

(** The optional array arguments of a constructor: [Some p] when the
    constructor has the parameter and was passed the pointer [p]. *)
Definition call_stride (c : ctor_call) : option int64_ptr :=
  match c with
  | Call_AvgPool1d _ s => Some s
  | Call_AvgPool2d _ _ s _ => Some s
  | Call_AvgPool3d _ _ s _ => Some s
  | Call_MaxPool1d _ s _ _ _ => Some s
  | Call_MaxPool2d _ _ s _ _ _ _ _ _ => Some s
  | Call_MaxPool3d _ _ s _ _ _ _ _ _ => Some s
  | _ => None
  end.

Definition call_padding (c : ctor_call) : option int64_ptr :=
  match c with
  | Call_MaxPool1d _ _ p _ _ => Some p
  | Call_MaxPool2d _ _ _ _ p _ _ _ _ => Some p
  | Call_MaxPool3d _ _ _ _ p _ _ _ _ => Some p
  | _ => None
  end.

Definition call_dilation (c : ctor_call) : option int64_ptr :=
  match c with
  | Call_MaxPool1d _ _ _ d _ => Some d
  | Call_MaxPool2d _ _ _ _ _ _ d _ _ => Some d
  | Call_MaxPool3d _ _ _ _ _ _ d _ _ => Some d
  | _ => None
  end.

(** The slots of a pooling options record. *)
Definition pool_stride (o : ModuleOptions) : option (list Z) :=
  match o with
  | OAvgPool o => Some (AvgPoolOptions.stride o)
  | OMaxPool o => Some (MaxPoolOptions.stride o)
  | _ => None
  end.

Definition pool_padding (o : ModuleOptions) : option (list Z) :=
  match o with
  | OAvgPool o => Some (AvgPoolOptions.padding o)
  | OMaxPool o => Some (MaxPoolOptions.padding o)
  | _ => None
  end.

Definition pool_dilation (o : ModuleOptions) : option (list Z) :=
  match o with
  | OMaxPool o => Some (MaxPoolOptions.dilation o)
  | _ => None
  end.

Definition kind_dim (T : ModuleKind) : nat :=
  match T with
  | AvgPoolNd D | AdaptiveAvgPoolNd D | AdaptiveMaxPoolNd D | MaxPoolNd D
  | ConstantPadNd D | ReplicationPadNd D | ReflectionPadNd D
  | ConvNd D | ConvTransposeNd D => D
  | ZeroPad2d => 2
  end.

(** What libtorch's own options constructor makes of the kernel size of a
    pooling record: every other slot at the library's default. *)
Definition library_default (D : nat) (o : ModuleOptions) : ModuleOptions :=
  match o with
  | OAvgPool o => OAvgPool (AvgPoolOptions.new D (AvgPoolOptions.kernel_size o))
  | OMaxPool o => OMaxPool (MaxPoolOptions.new D (MaxPoolOptions.kernel_size o))
  | _ => o
  end.

(** The module types with weight and bias accessors, and their exported
    accessors. *)
Inductive conv_module : Type :=
  | Conv1d | Conv2d | Conv3d
  | ConvTranspose1d | ConvTranspose2d | ConvTranspose3d.

Definition conv_module_kind (m : conv_module) : ModuleKind :=
  match m with
  | Conv1d => ConvNd 1
  | Conv2d => ConvNd 2
  | Conv3d => ConvNd 3
  | ConvTranspose1d => ConvTransposeNd 1
  | ConvTranspose2d => ConvTransposeNd 2
  | ConvTranspose3d => ConvTransposeNd 3
  end.

Definition THSNN_weight (m : conv_module) : NNModule -> M Tensor :=
  match m with
  | Conv1d => THSNN_Conv1d_weight
  | Conv2d => THSNN_Conv2d_weight
  | Conv3d => THSNN_Conv3d_weight
  | ConvTranspose1d => THSNN_ConvTranspose1d_weight
  | ConvTranspose2d => THSNN_ConvTranspose2d_weight
  | ConvTranspose3d => THSNN_ConvTranspose3d_weight
  end.

Definition THSNN_set_weight (m : conv_module) : NNModule -> Tensor -> M unit :=
  match m with
  | Conv1d => THSNN_Conv1d_set_weight
  | Conv2d => THSNN_Conv2d_set_weight
  | Conv3d => THSNN_Conv3d_set_weight
  | ConvTranspose1d => THSNN_ConvTranspose1d_set_weight
  | ConvTranspose2d => THSNN_ConvTranspose2d_set_weight
  | ConvTranspose3d => THSNN_ConvTranspose3d_set_weight
  end.

Definition THSNN_bias (m : conv_module) : NNModule -> M Tensor :=
  match m with
  | Conv1d => THSNN_Conv1d_bias
  | Conv2d => THSNN_Conv2d_bias
  | Conv3d => THSNN_Conv3d_bias
  | ConvTranspose1d => THSNN_ConvTranspose1d_bias
  | ConvTranspose2d => THSNN_ConvTranspose2d_bias
  | ConvTranspose3d => THSNN_ConvTranspose3d_bias
  end.

Definition THSNN_set_bias (m : conv_module) : NNModule -> Tensor -> M unit :=
  match m with
  | Conv1d => THSNN_Conv1d_set_bias
  | Conv2d => THSNN_Conv2d_set_bias
  | Conv3d => THSNN_Conv3d_set_bias
  | ConvTranspose1d => THSNN_ConvTranspose1d_set_bias
  | ConvTranspose2d => THSNN_ConvTranspose2d_set_bias
  | ConvTranspose3d => THSNN_ConvTranspose3d_set_bias
  end.

(** The three functions that also return the indices of the maxima. *)
Inductive max_pool : Type := MaxPool1d | MaxPool2d | MaxPool3d.

Definition max_pool_kind (p : max_pool) : ModuleKind :=
  match p with
  | MaxPool1d => MaxPoolNd 1
  | MaxPool2d => MaxPoolNd 2
  | MaxPool3d => MaxPoolNd 3
  end.

Definition THSNN_forward_with_indices (p : max_pool)
    : NNModule -> Tensor -> handle -> M Tensor :=
  match p with
  | MaxPool1d => THSNN_MaxPool1d_forward_with_indices
  | MaxPool2d => THSNN_MaxPool2d_forward_with_indices
  | MaxPool3d => THSNN_MaxPool3d_forward_with_indices
  end.

End Boundary.

(** ** A small instance of the library interface

    It is used to run the exported functions on concrete inputs: every
    construction succeeds (convolutions get two parameter tensors), a forward
    computation on a defined tensor yields new tensors, and one on the
    undefined tensor raises, as libtorch does. *)
Definition stub_library : TorchLibrary := {|
  Impl_new T opts :=
    match T with
    | ConvNd _ | ConvTransposeNd _ => inr (Some 1%positive, Some 2%positive)
    | _ => inr (None, None)
    end;
  Impl_forward m x :=
    match x with
    | Some t => inr (t~0)%positive
    | None => inl "forward: undefined tensor"%string
    end;
  Impl_forward_with_indices m x :=
    match x with
    | Some t => inr (t~0, t~1)%positive
    | None => inl "forward_with_indices: undefined tensor"%string
    end
|}.

Definition empty_state : State :=
  mkState None ∅ ∅ ∅ ∅ ∅ 1%positive.

(** A process that holds a [MaxPool1d] module behind handle 11, a handle 20
    to an undefined tensor, a handle 21 to tensor 5, and a caller cell 30
    that currently stores handle 21. *)
Definition pool_state : State :=
  mkState None
    {[ 10%positive :=
         mkImpl (MaxPoolNd 1) (OMaxPool (MaxPoolOptions.new 1 [2])) None None ]}
    {[ 11%positive := 10%positive ]}
    ∅
    (<[ 20%positive := None ]> {[ 21%positive := Some 5%positive ]})
    {[ 30%positive := Some 21%positive ]}
    40%positive.

(** A process that holds a [Conv1d] module behind handle 11, with weight
    tensor 1 and bias tensor 2, and a handle 21 to tensor 5. *)
Definition conv_state : State :=
  mkState None
    {[ 10%positive :=
         mkImpl (ConvNd 1)
           (OConv (Conv1d_opts 3 8 5 1 (Conv1d_padd 2) 1 1 true))
           (Some 1%positive) (Some 2%positive) ]}
    {[ 11%positive := 10%positive ]}
    ∅
    {[ 21%positive := Some 5%positive ]}
    ∅
    40%positive.

(** ** Views of the exported functions used by the further properties *)

Section Dispatch.
Context `{lib : TorchLibrary}.

(** The exported forward function of each module type of the file. *)
Definition exported_forward (T : ModuleKind)
    : option (NNModule -> Tensor -> M Tensor) :=
  match T with
  | AvgPoolNd 1 => Some THSNN_AvgPool1d_forward
  | AvgPoolNd 2 => Some THSNN_AvgPool2d_forward
  | AvgPoolNd 3 => Some THSNN_AvgPool3d_forward
  | AdaptiveAvgPoolNd 1 => Some THSNN_AdaptiveAvgPool1d_forward
  | AdaptiveAvgPoolNd 2 => Some THSNN_AdaptiveAvgPool2d_forward
  | AdaptiveAvgPoolNd 3 => Some THSNN_AdaptiveAvgPool3d_forward
  | AdaptiveMaxPoolNd 1 => Some THSNN_AdaptiveMaxPool1d_forward
  | AdaptiveMaxPoolNd 2 => Some THSNN_AdaptiveMaxPool2d_forward
  | AdaptiveMaxPoolNd 3 => Some THSNN_AdaptiveMaxPool3d_forward
  | MaxPoolNd 1 => Some THSNN_MaxPool1d_forward
  | MaxPoolNd 2 => Some THSNN_MaxPool2d_forward
  | MaxPoolNd 3 => Some THSNN_MaxPool3d_forward
  | ZeroPad2d => Some THSNN_ZeroPad2d_forward
  | ConstantPadNd 1 => Some THSNN_ConstantPad1d_forward
  | ConstantPadNd 2 => Some THSNN_ConstantPad2d_forward
  | ConstantPadNd 3 => Some THSNN_ConstantPad3d_forward
  | ReplicationPadNd 1 => Some THSNN_ReplicationPad1d_forward
  | ReplicationPadNd 2 => Some THSNN_ReplicationPad2d_forward
  | ReplicationPadNd 3 => Some THSNN_ReplicationPad3d_forward
  | ReflectionPadNd 1 => Some THSNN_ReflectionPad1d_forward
  | ReflectionPadNd 2 => Some THSNN_ReflectionPad2d_forward
  | ReflectionPadNd 3 => Some THSNN_ReflectionPad3d_forward
  | ConvNd 1 => Some THSNN_Conv1d_forward
  | ConvNd 2 => Some THSNN_Conv2d_forward
  | ConvNd 3 => Some THSNN_Conv3d_forward
  | ConvTransposeNd 1 => Some THSNN_ConvTranspose1d_forward
  | ConvTransposeNd 2 => Some THSNN_ConvTranspose2d_forward
  | ConvTransposeNd 3 => Some THSNN_ConvTranspose3d_forward
  | _ => None
  end.

End Dispatch.

(** An optional array argument counts only when its pointer is not null. *)
Definition supplied (p : int64_ptr) (length : Z) : list (int64_ptr * Z) :=
  match p with
  | Some _ => [(p, length)]
  | None => []
  end.

(** The arrays a constructor converts while it builds its options, in the
    order of the conversions, each with the length it is converted with (the
    literal 1 in the 1D pooling constructors). *)
Definition call_arrays (c : ctor_call) : list (int64_ptr * Z) :=
  match c with
  | Call_AvgPool1d k s => (k, 1) :: supplied s 1
  | Call_AvgPool2d k kl s sl => (k, kl) :: supplied s sl
  | Call_AvgPool3d k kl s sl => (k, kl) :: supplied s sl
  | Call_AdaptiveAvgPool1d k kl | Call_AdaptiveAvgPool2d k kl
  | Call_AdaptiveAvgPool3d k kl | Call_AdaptiveMaxPool1d k kl
  | Call_AdaptiveMaxPool2d k kl | Call_AdaptiveMaxPool3d k kl => [(k, kl)]
  | Call_MaxPool1d k s p d _ =>
      (k, 1) :: supplied s 1 ++ supplied p 1 ++ supplied d 1
  | Call_MaxPool2d k kl s sl p pl d dl _ =>
      (k, kl) :: supplied s sl ++ supplied p pl ++ supplied d dl
  | Call_MaxPool3d k kl s sl p pl d dl _ =>
      (k, kl) :: supplied s sl ++ supplied p pl ++ supplied d dl
  | _ => []
  end.

(** The length of an array matches the dimension [D] once it is a
    [size_t]. *)
Definition length_ok (D : nat) (a : int64_ptr * Z) : bool :=
  snd a mod 2 ^ 64 =? Z.of_nat D.

(** The pointer of an array is not null and [D] values can be read there. *)
Definition readable (D : nat) (a : int64_ptr * Z) : bool :=
  match fst a with
  | Some l => (D <=? length l)%nat
  | None => false
  end.

(** The slots of a pooling options record that every pooling constructor
    sets. *)
Definition pool_kernel_size (o : ModuleOptions) : option (list Z) :=
  match o with
  | OAvgPool o => Some (AvgPoolOptions.kernel_size o)
  | OMaxPool o => Some (MaxPoolOptions.kernel_size o)
  | OAdaptivePool k => Some k
  | _ => None
  end.

Definition pool_ceil_mode (o : ModuleOptions) : option bool :=
  match o with
  | OAvgPool o => Some (AvgPoolOptions.ceil_mode o)
  | OMaxPool o => Some (MaxPoolOptions.ceil_mode o)
  | _ => None
  end.

(** The [ceil_mode] argument of the constructors that have one. *)
Definition call_ceil_mode (c : ctor_call) : option bool :=
  match c with
  | Call_MaxPool1d _ _ _ _ cm => Some cm
  | Call_MaxPool2d _ _ _ _ _ _ _ _ cm => Some cm
  | Call_MaxPool3d _ _ _ _ _ _ _ _ cm => Some cm
  | _ => None
  end.

(** Case analysis on every array conversion a hypothesis [H] still
    mentions, keeping what each test decided; [cases] is the lemma that
    lists the three ways a conversion can end. *)
Ltac split_arrays cases H :=
  repeat (cbv beta iota in H;
          match type of H with
          | context [ExpandingArray_of ?D (ArrayRef ?p ?len) ?s] =>
              let E := fresh "E" in
              destruct (cases D p len s ltac:(discriminate))
                as [(? & ? & ? & ? & E) | [(? & E) | (? & ? & E)]];
              rewrite E in H; clear E; simplify_eq
          | context [match ?p with Some _ => _ | None => _ end] =>
              is_var p; destruct p
          end);
  cbv beta iota in H.

(** The integer codes of the four padding modes at the C boundary. *)
Definition padding_mode_code (m : padding_mode_t) : Z :=
  match m with
  | kZeros => 0
  | kReflect => 1
  | kReplicate => 2
  | kCircular => 3
  end.

(** The state after [ResultTensor] boxed the defined tensor [t]. *)
Definition boxed (t : positive) (s : State) : State :=
  mkState (torch_last_err s) (impls s) (modules s) (anymodules s)
          (<[next s := Some t]> (tensors s)) (cells s) (Pos.succ (next s)).

(** ** Proof steps for the option builders *)

(** Case analysis on the next array conversion of the goal; [state_lemma]
    tells what the conversion does to the state. *)
Ltac step_array state_lemma :=
  match goal with
  | |- context [ExpandingArray_of ?D ?v ?s] =>
      let E := fresh "E" in
      pose proof (state_lemma D v s) as E;
      destruct (ExpandingArray_of D v s); [subst | subst | ]; cbn
  end.

(** Run an option builder that is known to have returned, in hypothesis
    [H]: every conversion on the way succeeded. *)
Ltac run_opts H :=
  repeat match type of H with
    | context [ExpandingArray_of ?D ?v ?s] =>
        destruct (ExpandingArray_of D v s); cbn in H; try discriminate H
    | context [match ?p with Some _ => _ | None => _ end] =>
        is_var p; destruct p; cbn in H; try discriminate H
    end.

(** Unfold the option builders of the pooling constructors in [H]. *)
Ltac unfold_builders H :=
  unfold AvgPool1d_opts, AvgPool2d_opts, AvgPool3d_opts, AdaptivePool_opts,
    MaxPool1d_opts, MaxPool2d_opts, MaxPool3d_opts, bind, ret in H.

(** Every live tensor handle lies below the allocation cursor: the next
    addresses [operator new] returns are not in use as tensor handles. *)
Definition tensors_wf (s : State) : bool :=
  bool_decide
    (map_Forall (fun a (_ : at_Tensor) => (a < next s)%positive) (tensors s)).

(** * Properties *)

Section Properties.
Context `{lib : TorchLibrary}.

(** ** The catch boundary *)

Lemma CATCH_Ok {A} (res a : A) (stmt : M A) (s s' : State) :
  stmt s = Ok a s' -> CATCH res stmt s = Ok a s'.
Proof. unfold CATCH. intros ->. reflexivity. Qed.

Lemma CATCH_Throw {A} (res : A) (stmt : M A) (s s' : State) (w : string) :
  stmt s = Throw w s' -> CATCH res stmt s = Ok res (set_last_err w s').
Proof. unfold CATCH. intros ->. reflexivity. Qed.

Lemma CATCH_never_throws {A} (res : A) (stmt : M A) (s s' : State) (w : string) :
  CATCH res stmt s <> Throw w s'.
Proof. unfold CATCH. destruct (stmt s); discriminate. Qed.

(** Every constructor is its guarded statement under the boundary. *)
Lemma invoke_boundary (c : ctor_call) (out : handle) :
  invoke c out = CATCH_RETURN_NNModule (ctor_stmt c out).
Proof. destruct c as [| | | | | | | | | | | | | | | | | | | | | |c];
         try reflexivity; destruct c; reflexivity. Qed.

(** Building options reads the caller's arrays and nothing else: it leaves
    the state as it found it, raising included. *)
Lemma ExpandingArray_of_state (D : nat) (values : ArrayRef_t) (s : State) :
  match ExpandingArray_of D values s with
  | Ok _ s' => s' = s
  | Throw _ s' => s' = s
  | Crash => True
  end.
Proof.
  unfold ExpandingArray_of, ret, throw, crash.
  destruct (ar_size values =? Z.of_nat D); [|reflexivity].
  destruct (ar_data values) as [l|].
  - destruct (D <=? length l)%nat; [reflexivity | exact I].
  - destruct (D =? 0)%nat; [reflexivity | exact I].
Qed.

Lemma call_opts_state (c : ctor_call) (s : State) :
  match call_opts c s with
  | Ok _ s' => s' = s
  | Throw _ s' => s' = s
  | Crash => True
  end.
Proof.
  destruct c; cbn;
    unfold AvgPool1d_opts, AvgPool2d_opts, AvgPool3d_opts, AdaptivePool_opts,
      MaxPool1d_opts, MaxPool2d_opts, MaxPool3d_opts, bind, ret;
    try reflexivity;
    repeat (first [ step_array ExpandingArray_of_state
                  | match goal with
                    | |- context [match ?p with Some _ => _ | None => _ end] =>
                        is_var p; destruct p; cbn
                    end ]);
    auto.
Qed.

(** [create_module] can only raise in libtorch's module constructor, before
    anything was allocated or stored. *)
Lemma create_module_Throw (T : ModuleKind) (opts : ModuleOptions)
    (out : handle) (s s' : State) (w : string) :
  create_module T opts out s = Throw w s' -> s' = s.
Proof.
  unfold create_module, bind, lift.
  destruct (Impl_new T opts) as [w'|params]; cbn.
  - unfold throw. congruence.
  - destruct out; cbn; discriminate.
Qed.

Lemma ctor_stmt_Throw (c : ctor_call) (out : handle) (s s' : State) (w : string) :
  ctor_stmt c out s = Throw w s' -> s' = s.
Proof.
  unfold ctor_stmt, bind. pose proof (call_opts_state c s) as E.
  destruct (call_opts c s) as [opts s1|w1 s1|]; subst.
  - apply create_module_Throw.
  - congruence.
  - discriminate.
Qed.

(** C2. For every exported constructor: an exception raised while the
    options record is built or the module is constructed does not leave the
    function; the function returns the null module handle, the exception's
    description is in the last-error slot, and nothing else in the state
    has changed (no module was allocated, the out-parameter was not
    written). *)
Theorem ctor_fault_is_caught (c : ctor_call) (out : handle) (s : State) :
  (forall w s', invoke c out s <> Throw w s') /\
  (forall w s', ctor_stmt c out s = Throw w s' ->
                invoke c out s = Ok nullptr (set_last_err w s)).
Proof.
  rewrite invoke_boundary. unfold CATCH_RETURN_NNModule. split.
  - intros w s'. apply CATCH_never_throws.
  - intros w s' H. pose proof (ctor_stmt_Throw _ _ _ _ _ H) as ->.
    now apply CATCH_Throw.
Qed.

(** ** The padding mode *)

Lemma ApplyPaddingMode_Conv_code (o : ConvOptions.t) (m : padding_mode_t) :
  ApplyPaddingMode o (padding_mode_code m) = ConvOptions.set_padding_mode m o.
Proof. destruct m; reflexivity. Qed.

Lemma ApplyPaddingMode_ConvTranspose_code (o : ConvTransposeOptions.t)
    (m : padding_mode_t) :
  ApplyPaddingMode o (padding_mode_code m) =
  ConvTransposeOptions.set_padding_mode m o.
Proof. destruct m; reflexivity. Qed.

Lemma ApplyPaddingMode_out_of_range {T} `{HasPaddingMode T} (o : T) (pm : Z) :
  pm < 0 \/ 3 < pm -> ApplyPaddingMode o pm = o.
Proof.
  intros Hpm. unfold ApplyPaddingMode.
  destruct (Z.eqb_spec pm 0); [lia|].
  destruct (Z.eqb_spec pm 1); [lia|].
  destruct (Z.eqb_spec pm 2); [lia|].
  destruct (Z.eqb_spec pm 3); [lia|].
  reflexivity.
Qed.

Lemma conv_invoke_options (c : conv_ctor) (out : handle) :
  conv_invoke c out =
  CATCH_RETURN_NNModule (create_module (conv_kind c) (conv_options c) out).
Proof. destruct c; reflexivity. Qed.

Lemma conv_built_is_conv (c : conv_ctor) :
  (exists o, conv_built c = OConv o) \/ (exists o, conv_built c = OConvTranspose o).
Proof. destruct c; cbn; eauto. Qed.

(** C5. For every convolution and transposed-convolution constructor, the
    codes 0, 1, 2, 3 of [paddingMode] put zeros, reflect, replicate,
    circular into the padding-mode slot of the options the module is
    created from; the mode is applied to the record in which the padding
    slot was already set, and leaves that slot as it was. *)
Theorem padding_mode_applied_after_padding (c : conv_ctor) (out : handle)
    (m : padding_mode_t) (Hcode : conv_paddingMode c = padding_mode_code m) :
  conv_invoke c out =
    CATCH_RETURN_NNModule
      (create_module (conv_kind c)
         (options_ApplyPaddingMode (conv_built c) (conv_paddingMode c)) out) /\
  options_padding_mode
    (options_ApplyPaddingMode (conv_built c) (conv_paddingMode c)) = Some m /\
  options_padding
    (options_ApplyPaddingMode (conv_built c) (conv_paddingMode c)) =
  options_padding (conv_built c).
Proof.
  split; [apply conv_invoke_options|].
  rewrite Hcode.
  destruct (conv_built_is_conv c) as [[o ->]|[o ->]]; cbn.
  - rewrite ApplyPaddingMode_Conv_code. split; reflexivity.
  - rewrite ApplyPaddingMode_ConvTranspose_code. split; reflexivity.
Qed.

Lemma conv_built_padding_mode (c : conv_ctor) :
  options_padding_mode (conv_built c) = Some kZeros.
Proof. destruct c; reflexivity. Qed.

(** C8. For every convolution and transposed-convolution constructor, a
    [paddingMode] outside 0..3 is accepted: [ApplyPaddingMode] assigns
    nothing, the padding-mode slot keeps the value the library's options
    constructor gave it (zeros), and the module is created from the
    options as they were built. *)
Theorem padding_mode_out_of_range_ignored (c : conv_ctor) (out : handle)
    (Hrange : conv_paddingMode c < 0 \/ 3 < conv_paddingMode c) :
  conv_options c = conv_built c /\
  options_padding_mode (conv_options c) = Some kZeros /\
  conv_invoke c out =
    CATCH_RETURN_NNModule (create_module (conv_kind c) (conv_built c) out).
Proof.
  assert (E : conv_options c = conv_built c).
  { unfold conv_options.
    destruct (conv_built_is_conv c) as [[o ->]|[o ->]]; cbn;
      now rewrite ApplyPaddingMode_out_of_range. }
  split; [exact E|]. split.
  - rewrite E. apply conv_built_padding_mode.
  - rewrite conv_invoke_options, E. reflexivity.
Qed.

(** ** Padding sentinels *)

(** C1 (as amended). The sentinel convention depends on the constructor.
    The Conv2d and Conv3d constructors and their per-axis overloads (which
    look at [paddingX]) select "same" for -1 and "valid" for 0. Conv1d
    selects "same" for -1 and uses any value other than -1 and 0 as the
    width. The transposed constructors have no sentinel: whatever the
    padding argument is, -1 and 0 included, it becomes the width on every
    axis. *)
Theorem padding_sentinel_by_constructor (c : conv_ctor) :
  let p := conv_padding c in
  let slot := options_padding (conv_options c) in
  match conv_kind c with
  | ConvNd 1 =>
      (p = -1 -> slot = Some kSame) /\
      (p <> -1 -> p <> 0 -> slot = Some (Explicit [p]))
  | ConvNd _ =>
      (p = -1 -> slot = Some kSame) /\ (p = 0 -> slot = Some kValid)
  | T => slot = Some (Explicit (ExpandingArray (kind_dim T) p))
  end.
Proof.
  assert (Hmode : forall (o : ConvOptions.t) pm,
             ConvOptions.padding (ApplyPaddingMode o pm) = ConvOptions.padding o).
  { intros o pm. unfold ApplyPaddingMode.
    destruct (pm =? 0), (pm =? 1), (pm =? 2), (pm =? 3); reflexivity. }
  assert (HmodeT : forall (o : ConvTransposeOptions.t) pm,
             ConvTransposeOptions.padding (ApplyPaddingMode o pm) =
             ConvTransposeOptions.padding o).
  { intros o pm. unfold ApplyPaddingMode.
    destruct (pm =? 0), (pm =? 1), (pm =? 2), (pm =? 3); reflexivity. }
  destruct c; cbn -[ApplyPaddingMode ExpandingArray];
    rewrite ?Hmode, ?HmodeT; cbn;
    unfold Conv1d_padd, Conv2d_padd, Conv2d_1_padd, Conv3d_padd, Conv3d_1_padd;
    try reflexivity;
    (split; [intros ->; reflexivity|]).
  - intros Hs Hv. destruct (Z.eqb_spec padding (-1)); [contradiction|reflexivity].
  - intros ->; reflexivity.
  - intros ->; reflexivity.
  - intros ->; reflexivity.
  - intros ->; reflexivity.
Qed.

(** C9. In the per-axis constructors the sentinel test looks at [paddingX]
    only: when [paddingX] is -1 (resp. 0) the padding slot is "same" (resp.
    "valid") and the constructor does the same whatever [paddingY] (and
    [paddingZ]) are. *)
Theorem per_axis_sentinel_from_paddingX (paddingX : Z)
    (Hsentinel : paddingX = -1 \/ paddingX = 0) :
  (forall paddingY,
     Conv2d_1_padd paddingX paddingY =
     (if paddingX =? -1 then kSame else kValid)) /\
  (forall paddingY paddingZ,
     Conv3d_1_padd paddingX paddingY paddingZ =
     (if paddingX =? -1 then kSame else kValid)) /\
  (forall i o kx ky sx sy py py' dx dy pm g b out,
     THSNN_Conv2d_ctor_1 i o kx ky sx sy paddingX py dx dy pm g b out =
     THSNN_Conv2d_ctor_1 i o kx ky sx sy paddingX py' dx dy pm g b out) /\
  (forall i o kx ky kz sx sy sz py pz py' pz' dx dy dz pm g b out,
     THSNN_Conv3d_ctor_1 i o kx ky kz sx sy sz paddingX py pz dx dy dz pm g b out =
     THSNN_Conv3d_ctor_1 i o kx ky kz sx sy sz paddingX py' pz' dx dy dz pm g b out).
Proof.
  destruct Hsentinel as [-> | ->]; repeat split; intros; reflexivity.
Qed.

(** ** The per-axis overloads against the single-scalar constructors *)

(** C4. Called with the same value on every axis for kernel, stride,
    padding and dilation, a per-axis constructor is the single-scalar
    constructor on these values: the two calls hand the same options to
    libtorch and return the same handle in the same state, so that every
    forward call on the module they return gives the same result. *)
Theorem per_axis_equal_values_is_scalar_ctor :
  (forall i o k s p d pm g b out,
     THSNN_Conv2d_ctor_1 i o k k s s p p d d pm g b out =
     THSNN_Conv2d_ctor i o k s p d pm g b out) /\
  (forall i o k s p d pm g b out,
     THSNN_Conv3d_ctor_1 i o k k k s s s p p p d d d pm g b out =
     THSNN_Conv3d_ctor i o k s p d pm g b out) /\
  (forall i o k s p d pm g b out tensor st,
     (module <- THSNN_Conv2d_ctor_1 i o k k s s p p d d pm g b out ;;
      THSNN_Conv2d_forward module tensor) st =
     (module <- THSNN_Conv2d_ctor i o k s p d pm g b out ;;
      THSNN_Conv2d_forward module tensor) st) /\
  (forall i o k s p d pm g b out tensor st,
     (module <- THSNN_Conv3d_ctor_1 i o k k k s s s p p p d d d pm g b out ;;
      THSNN_Conv3d_forward module tensor) st =
     (module <- THSNN_Conv3d_ctor i o k s p d pm g b out ;;
      THSNN_Conv3d_forward module tensor) st).
Proof.
  repeat split; intros; reflexivity.
Qed.

(** ** Optional arrays of the pooling constructors *)

(** C6. For every constructor with an optional array parameter (stride of
    the average pools; stride, padding and dilation of the max pools): when
    the pointer is null the constructor leaves that slot of the options
    record as libtorch's own options constructor made it from the kernel
    size, so the module is built with the library's default for it. *)
Theorem null_optional_array_keeps_default (c : ctor_call) (s s' : State)
    (opts : ModuleOptions) (Hopts : call_opts c s = Ok opts s') :
  let dflt := library_default (kind_dim (call_kind c)) opts in
  (call_stride c = Some None -> pool_stride opts = pool_stride dflt) /\
  (call_padding c = Some None -> pool_padding opts = pool_padding dflt) /\
  (call_dilation c = Some None -> pool_dilation opts = pool_dilation dflt).
Proof.
  destruct c; cbn in *; repeat split; intros Hnull;
    try discriminate Hnull; injection Hnull as ->;
    unfold AvgPool1d_opts, AvgPool2d_opts, AvgPool3d_opts,
      MaxPool1d_opts, MaxPool2d_opts, MaxPool3d_opts, bind, ret in Hopts;
    cbn in Hopts; run_opts Hopts;
    injection Hopts as <- <-; reflexivity.
Qed.

(** ** Array lengths *)




Lemma ExpandingArray_of_spec (D : nat) (p : int64_ptr) (len : Z) (s : State) :
  ExpandingArray_of D (ArrayRef p len) s =
  if len mod 2 ^ 64 =? Z.of_nat D then
    match p with
    | Some l => if (D <=? length l)%nat then Ok (firstn D l) s else Crash
    | None => if (D =? 0)%nat then Ok [] s else Crash
    end
  else Throw "Expected a fixed number of values for an ExpandingArray" s.
Proof.
  unfold ExpandingArray_of, ArrayRef; cbn [ar_size ar_data].
  destruct (len mod 2 ^ 64 =? Z.of_nat D); [|reflexivity].
  destruct p as [l|]; [destruct (D <=? length l)%nat|destruct (D =? 0)%nat];
    reflexivity.
Qed.

(** The three ways the conversion of a caller's array can end. *)
Lemma ExpandingArray_of_cases (D : nat) (p : int64_ptr) (len : Z) (s : State) :
  D <> 0%nat ->
  (exists l, p = Some l /\ length_ok D (p, len) = true /\
             readable D (p, len) = true /\
             ExpandingArray_of D (ArrayRef p len) s = Ok (firstn D l) s) \/
  (length_ok D (p, len) = false /\
   ExpandingArray_of D (ArrayRef p len) s =
   Throw "Expected a fixed number of values for an ExpandingArray" s) \/
  (length_ok D (p, len) = true /\ readable D (p, len) = false /\
   ExpandingArray_of D (ArrayRef p len) s = Crash).
Proof.
  intros HD. unfold ExpandingArray_of, ArrayRef, length_ok, readable;
    cbn [ar_size ar_data fst snd].
  destruct (len mod 2 ^ 64 =? Z.of_nat D); [|right; left; split; reflexivity].
  destruct p as [l|].
  - destruct (D <=? length l)%nat.
    + left. exists l. repeat split; reflexivity.
    + right; right. repeat split; reflexivity.
  - right; right. destruct (Nat.eqb_spec D 0); [contradiction|].
    repeat split; reflexivity.
Qed.

Lemma call_opts_Throw (c : ctor_call) (s s' : State) (w : string) :
  call_opts c s = Throw w s' ->
  w = "Expected a fixed number of values for an ExpandingArray"%string /\
  existsb (fun a => negb (length_ok (kind_dim (call_kind c)) a))
    (call_arrays c) = true.
Proof.
  intros H.
  destruct c; cbn [call_opts] in H; unfold_builders H;
    split_arrays ExpandingArray_of_cases H; simplify_eq;
    (split; [reflexivity|]);
    cbn [call_arrays kind_dim call_kind supplied existsb app];
    repeat match goal with
      | Hx : length_ok _ _ = _ |- _ => rewrite Hx; clear Hx
      end;
    reflexivity.
Qed.

Lemma call_opts_Crash (c : ctor_call) (s : State) :
  call_opts c s = Crash ->
  existsb (fun a => length_ok (kind_dim (call_kind c)) a &&
                    negb (readable (kind_dim (call_kind c)) a))
    (call_arrays c) = true.
Proof.
  intros H.
  destruct c; cbn [call_opts] in H; unfold_builders H;
    split_arrays ExpandingArray_of_cases H; simplify_eq;
    cbn [call_arrays kind_dim call_kind supplied existsb app];
    repeat match goal with
      | Hx : length_ok _ _ = _ |- _ => rewrite Hx; clear Hx
      | Hx : readable _ _ = _ |- _ => rewrite Hx; clear Hx
      end;
    reflexivity.
Qed.

Lemma forallb_excludes {A} (f g : A -> bool) (l : list A) :
  forallb (fun a => f a && g a) l = true ->
  existsb (fun a => negb (f a)) l = false /\
  existsb (fun a => f a && negb (g a)) l = false.
Proof.
  induction l as [|a l IH]; cbn; [auto|].
  intros H. apply andb_true_iff in H as [Ha Hl].
  apply andb_true_iff in Ha as [-> ->]. cbn. auto.
Qed.









(** ** Handles *)

Lemma module_as_Ok (T : ModuleKind) (a obj : positive) (impl : ModuleImpl)
    (s : State) :
  modules s !! a = Some obj -> impls s !! obj = Some impl ->
  impl_kind impl = T ->
  module_as T (Some a) s = Ok (obj, impl) s.
Proof.
  intros Hm Hi Hk. unfold module_as. rewrite Hm, Hi.
  destruct (decide (impl_kind impl = T)); [reflexivity|contradiction].
Qed.

Lemma deref_tensor_Ok (h : positive) (x : at_Tensor) (s : State) :
  tensors s !! h = Some x -> deref_tensor (Some h) s = Ok x s.
Proof. intros Hx. unfold deref_tensor. now rewrite Hx. Qed.

Lemma module_forward_with_indices_run (T : ModuleKind) (a obj h : positive)
    (impl : ModuleImpl) (x : at_Tensor) (s : State) :
  modules s !! a = Some obj -> impls s !! obj = Some impl ->
  impl_kind impl = T -> tensors s !! h = Some x ->
  module_forward_with_indices T (Some a) (Some h) s =
  match Impl_forward_with_indices impl x with
  | inr y => Ok (Some (fst y), Some (snd y)) s
  | inl w => Throw w s
  end.
Proof.
  intros Hm Hi Hk Hx. unfold module_forward_with_indices, bind.
  rewrite (module_as_Ok T a obj impl s Hm Hi Hk), (deref_tensor_Ok h x s Hx).
  cbn. destruct (Impl_forward_with_indices impl x); reflexivity.
Qed.

(** C3 (as amended). For MaxPool1d/2d/3d, on a live module of that type and
    a live tensor handle: when the module's computation succeeds, the
    function returns a handle to the value tensor and stores a handle to
    the indices tensor in the out-parameter; when it raises, the function
    returns the null handle, records the error, and stores the null handle
    in the out-parameter (the slot is written in both cases). *)
Theorem forward_with_indices_outputs (p : max_pool) (a obj h cell : positive)
    (impl : ModuleImpl) (x : at_Tensor) (s : State)
    (Hm : modules s !! a = Some obj) (Hi : impls s !! obj = Some impl)
    (Hk : impl_kind impl = max_pool_kind p) (Hx : tensors s !! h = Some x) :
  match Impl_forward_with_indices impl x with
  | inr (v, i) =>
      exists hv hi s',
        THSNN_forward_with_indices p (Some a) (Some h) (Some cell) s =
          Ok (Some hv) s' /\
        tensors s' !! hv = Some (Some v) /\
        cells s' !! cell = Some (Some hi) /\
        tensors s' !! hi = Some (Some i)
  | inl w =>
      exists s',
        THSNN_forward_with_indices p (Some a) (Some h) (Some cell) s =
          Ok nullptr s' /\
        cells s' !! cell = Some nullptr /\
        torch_last_err s' = Some w
  end.
Proof.
  pose proof (module_forward_with_indices_run (max_pool_kind p) a obj h impl
                x s Hm Hi Hk Hx) as Hrun.
  destruct (Impl_forward_with_indices impl x) as [w|[v i]].
  - eexists. split; [|split].
    + destruct p;
        cbn [max_pool_kind THSNN_forward_with_indices] in Hrun |- *;
        unfold THSNN_MaxPool1d_forward_with_indices,
          THSNN_MaxPool2d_forward_with_indices,
          THSNN_MaxPool3d_forward_with_indices, bind, CATCH;
        rewrite Hrun; reflexivity.
    + cbn. apply lookup_insert_eq.
    + reflexivity.
  - eexists _, _, _. split; [|split; [|split]].
    + destruct p;
        cbn [max_pool_kind THSNN_forward_with_indices] in Hrun |- *;
        unfold THSNN_MaxPool1d_forward_with_indices,
          THSNN_MaxPool2d_forward_with_indices,
          THSNN_MaxPool3d_forward_with_indices, bind, CATCH;
        rewrite Hrun; reflexivity.
    + cbn. apply lookup_insert_eq.
    + cbn. apply lookup_insert_eq.
    + cbn. rewrite lookup_insert_ne by lia.
      apply lookup_insert_eq.
Qed.

Lemma set_weight_Ok (T : ModuleKind) (a obj h : positive) (impl : ModuleImpl)
    (x : at_Tensor) (s : State) :
  modules s !! a = Some obj -> impls s !! obj = Some impl ->
  impl_kind impl = T -> tensors s !! h = Some x ->
  set_weight T (Some a) (Some h) s =
  Ok tt (mkState (torch_last_err s)
           (<[obj := mkImpl (impl_kind impl) (impl_options impl) x
                       (impl_bias impl)]> (impls s))
           (modules s) (anymodules s) (tensors s) (cells s) (next s)).
Proof.
  intros Hm Hi Hk Hx. unfold set_weight, CATCH, bind.
  rewrite (module_as_Ok T a obj impl s Hm Hi Hk), (deref_tensor_Ok h x s Hx).
  reflexivity.
Qed.

Lemma set_bias_Ok (T : ModuleKind) (a obj h : positive) (impl : ModuleImpl)
    (x : at_Tensor) (s : State) :
  modules s !! a = Some obj -> impls s !! obj = Some impl ->
  impl_kind impl = T -> tensors s !! h = Some x ->
  set_bias T (Some a) (Some h) s =
  Ok tt (mkState (torch_last_err s)
           (<[obj := mkImpl (impl_kind impl) (impl_options impl)
                       (impl_weight impl) x]> (impls s))
           (modules s) (anymodules s) (tensors s) (cells s) (next s)).
Proof.
  intros Hm Hi Hk Hx. unfold set_bias, CATCH, bind.
  rewrite (module_as_Ok T a obj impl s Hm Hi Hk), (deref_tensor_Ok h x s Hx).
  reflexivity.
Qed.

Lemma get_weight_Ok (T : ModuleKind) (a obj t : positive) (impl : ModuleImpl)
    (s : State) :
  modules s !! a = Some obj -> impls s !! obj = Some impl ->
  impl_kind impl = T -> impl_weight impl = Some t ->
  get_weight T (Some a) s = Ok (Some (next s)) (boxed t s).
Proof.
  intros Hm Hi Hk Hw. unfold get_weight, CATCH_TENSOR, CATCH, bind.
  rewrite (module_as_Ok T a obj impl s Hm Hi Hk). cbn. rewrite Hw.
  reflexivity.
Qed.

Lemma get_bias_Ok (T : ModuleKind) (a obj t : positive) (impl : ModuleImpl)
    (s : State) :
  modules s !! a = Some obj -> impls s !! obj = Some impl ->
  impl_kind impl = T -> impl_bias impl = Some t ->
  get_bias T (Some a) s = Ok (Some (next s)) (boxed t s).
Proof.
  intros Hm Hi Hk Hb. unfold get_bias, CATCH_TENSOR, CATCH, bind.
  rewrite (module_as_Ok T a obj impl s Hm Hi Hk). cbn. rewrite Hb.
  reflexivity.
Qed.

(** C7. For every convolution and transposed-convolution module: after the
    weight (resp. bias) setter was called with a handle to a tensor, the
    getter returns a handle to that same tensor: the module holds the
    tensor itself, and the returned handle refers to it. *)
Theorem set_then_get_same_tensor (m : conv_module) (a obj h t : positive)
    (impl : ModuleImpl) (s : State)
    (Hm : modules s !! a = Some obj) (Hi : impls s !! obj = Some impl)
    (Hk : impl_kind impl = conv_module_kind m)
    (Ht : tensors s !! h = Some (Some t)) :
  (exists s1 h' s2,
     THSNN_set_weight m (Some a) (Some h) s = Ok tt s1 /\
     THSNN_weight m (Some a) s1 = Ok (Some h') s2 /\
     tensors s2 !! h' = Some (Some t)) /\
  (exists s1 h' s2,
     THSNN_set_bias m (Some a) (Some h) s = Ok tt s1 /\
     THSNN_bias m (Some a) s1 = Ok (Some h') s2 /\
     tensors s2 !! h' = Some (Some t)).
Proof.
  split.
  - eexists _, _, _. split; [|split].
    + destruct m; apply (set_weight_Ok _ a obj h impl (Some t) s); assumption.
    + destruct m;
        (eapply (get_weight_Ok _ a obj t);
         [exact Hm | apply lookup_insert_eq | exact Hk | reflexivity]).
    + apply lookup_insert_eq.
  - eexists _, _, _. split; [|split].
    + destruct m; apply (set_bias_Ok _ a obj h impl (Some t) s); assumption.
    + destruct m;
        (eapply (get_bias_Ok _ a obj t);
         [exact Hm | apply lookup_insert_eq | exact Hk | reflexivity]).
    + apply lookup_insert_eq.
Qed.

End Properties.

(** ** The properties on concrete calls *)

Lemma ctor_fault_is_caught_witness :
  invoke (lib := stub_library)
    (Call_AvgPool2d (Some [2; 2]) 3 None 0) None empty_state =
  Ok nullptr
    (set_last_err "Expected a fixed number of values for an ExpandingArray"
       empty_state).
Proof.
  exact (proj2 (ctor_fault_is_caught (lib := stub_library)
                  (Call_AvgPool2d (Some [2; 2]) 3 None 0) None empty_state)
           "Expected a fixed number of values for an ExpandingArray"%string
           empty_state eq_refl).
Defined.

Lemma padding_mode_applied_after_padding_witness :
  options_padding_mode (conv_options (Call_Conv1d 3 8 5 1 2 1 1 1 true)) =
    Some kReflect /\
  options_padding (conv_options (Call_Conv1d 3 8 5 1 2 1 1 1 true)) =
    Some (Explicit [2]).
Proof.
  exact (proj2 (padding_mode_applied_after_padding (lib := stub_library)
                  (Call_Conv1d 3 8 5 1 2 1 1 1 true) None kReflect eq_refl)).
Defined.

Lemma padding_mode_out_of_range_ignored_witness :
  options_padding_mode (conv_options (Call_ConvTranspose2d 3 8 5 1 2 0 1 7 1 true)) =
    Some kZeros.
Proof.
  exact (proj1 (proj2 (padding_mode_out_of_range_ignored (lib := stub_library)
                         (Call_ConvTranspose2d 3 8 5 1 2 0 1 7 1 true) None
                         (or_intror eq_refl)))).
Defined.

Lemma padding_sentinel_by_constructor_witness :
  options_padding (conv_options (Call_Conv2d 3 8 5 1 (-1) 1 0 1 true)) =
    Some kSame /\
  options_padding (conv_options (Call_Conv3d_1 3 8 5 5 5 1 1 1 0 4 4 1 1 1 0 1 true)) =
    Some kValid /\
  options_padding (conv_options (Call_Conv1d 3 8 5 1 2 1 0 1 true)) =
    Some (Explicit [2]).
Proof.
  split; [|split].
  - exact (proj1 (padding_sentinel_by_constructor
                    (Call_Conv2d 3 8 5 1 (-1) 1 0 1 true)) eq_refl).
  - exact (proj2 (padding_sentinel_by_constructor
                    (Call_Conv3d_1 3 8 5 5 5 1 1 1 0 4 4 1 1 1 0 1 true)) eq_refl).
  - apply (proj2 (padding_sentinel_by_constructor
                    (Call_Conv1d 3 8 5 1 2 1 0 1 true))); discriminate.
Defined.

(** C1, as stated, fails: a transposed constructor called with padding -1
    does not select "same", it pads by -1. *)
Lemma padding_sentinel_not_uniform :
  ~ (forall c : conv_ctor,
       (conv_padding c = -1 -> options_padding (conv_options c) = Some kSame) /\
       (conv_padding c = 0 -> options_padding (conv_options c) = Some kValid)).
Proof.
  intros H.
  destruct (H (Call_ConvTranspose1d 3 8 5 1 (-1) 0 1 0 1 true)) as [Hsame _].
  specialize (Hsame eq_refl). discriminate Hsame.
Qed.

Lemma per_axis_sentinel_from_paddingX_witness :
  Conv2d_1_padd (-1) 7 = kSame /\ Conv3d_1_padd 0 7 9 = kValid.
Proof.
  split.
  - exact (proj1 (per_axis_sentinel_from_paddingX (lib := stub_library) (-1)
                    (or_introl eq_refl)) 7).
  - exact (proj1 (proj2 (per_axis_sentinel_from_paddingX (lib := stub_library) 0
                           (or_intror eq_refl))) 7 9).
Defined.

Lemma null_optional_array_keeps_default_witness :
  pool_stride
    (OMaxPool (MaxPoolOptions.set_padding [1; 1]
                 (MaxPoolOptions.set_ceil_mode true (MaxPoolOptions.new 2 [3; 3])))) =
  Some [3; 3].
Proof.
  exact (proj1 (null_optional_array_keeps_default
                  (Call_MaxPool2d (Some [3; 3]) 2 None 0 (Some [1; 1]) 2 None 0 true)
                  empty_state empty_state _ eq_refl) eq_refl).
Defined.


Lemma forward_with_indices_outputs_witness :
  exists s',
    THSNN_MaxPool1d_forward_with_indices (lib := stub_library)
      (Some 11%positive) (Some 20%positive) (Some 30%positive) pool_state =
      Ok nullptr s' /\
    cells s' !! 30%positive = Some nullptr /\
    torch_last_err s' = Some "forward_with_indices: undefined tensor"%string.
Proof.
  exact (forward_with_indices_outputs (lib := stub_library) MaxPool1d
           11%positive 10%positive 20%positive 30%positive
           (mkImpl (MaxPoolNd 1) (OMaxPool (MaxPoolOptions.new 1 [2])) None None)
           None pool_state eq_refl eq_refl eq_refl eq_refl).
Defined.

(** C3, as stated, fails: when the computation raises, the out-parameter is
    not left as it was. In [pool_state] the slot holds handle 21 before the
    failing call and the null handle after it. *)
Lemma forward_with_indices_failure_writes_slot :
  ~ (forall (lib : TorchLibrary) (p : max_pool) (module : NNModule)
            (tensor : Tensor) (cell : positive) (s s1 : State) (w : string),
       module_forward_with_indices (max_pool_kind p) module tensor s =
         Throw w s1 ->
       exists s',
         THSNN_forward_with_indices p module tensor (Some cell) s =
           Ok nullptr s' /\
         cells s' !! cell = cells s !! cell).
Proof.
  intros H.
  destruct (H stub_library MaxPool1d (Some 11%positive) (Some 20%positive)
              30%positive pool_state pool_state
              "forward_with_indices: undefined tensor"%string eq_refl)
    as (s' & Hret & Hcell).
  vm_compute in Hret. injection Hret as <-.
  vm_compute in Hcell. discriminate Hcell.
Qed.

Lemma set_then_get_same_tensor_witness :
  (exists s1 h' s2,
     THSNN_Conv1d_set_weight
       (Some 11%positive) (Some 21%positive) conv_state = Ok tt s1 /\
     THSNN_Conv1d_weight (Some 11%positive) s1 =
       Ok (Some h') s2 /\
     tensors s2 !! h' = Some (Some 5%positive)) /\
  (exists s1 h' s2,
     THSNN_Conv1d_set_bias
       (Some 11%positive) (Some 21%positive) conv_state = Ok tt s1 /\
     THSNN_Conv1d_bias (Some 11%positive) s1 =
       Ok (Some h') s2 /\
     tensors s2 !! h' = Some (Some 5%positive)).
Proof.
  exact (set_then_get_same_tensor Conv1d
           11%positive 10%positive 21%positive 5%positive
           (mkImpl (ConvNd 1)
              (OConv (Conv1d_opts 3 8 5 1 (Conv1d_padd 2) 1 1 true))
              (Some 1%positive) (Some 2%positive))
           conv_state eq_refl eq_refl eq_refl eq_refl).
Defined.


(** * Further properties of the exported functions *)

Section FurtherProperties.
Context `{lib : TorchLibrary}.

(** ** Forward functions *)

Lemma exported_forward_body (T : ModuleKind) (f : NNModule -> Tensor -> M Tensor) :
  exported_forward T = Some f ->
  f = fun module tensor => CATCH_TENSOR (module_forward T module tensor).
Proof.
  destruct T as [D|D|D|D| |D|D|D|D|D]; try destruct D as [|[|[|[|D]]]]; cbn;
    intros E; try discriminate E; injection E as <-; reflexivity.
Qed.

Lemma tensors_wf_fresh (s : State) (n : positive) :
  tensors_wf s = true -> (next s <= n)%positive -> tensors s !! n = None.
Proof.
  unfold tensors_wf. intros H Hn. apply bool_decide_eq_true in H.
  destruct (tensors s !! n) eqn:E; [|reflexivity]. apply H in E. lia.
Qed.

Lemma tensors_wf_mono (s s1 : State) :
  tensors_wf s = true -> tensors s1 = tensors s ->
  (next s <= next s1)%positive -> tensors_wf s1 = true.
Proof.
  unfold tensors_wf. intros H Ht Hn. apply bool_decide_eq_true in H.
  apply bool_decide_eq_true. rewrite Ht.
  intros a t Ha. apply H in Ha. lia.
Qed.

Lemma tensors_wf_boxed (y : positive) (s : State) :
  tensors_wf s = true -> tensors_wf (boxed y s) = true.
Proof.
  unfold tensors_wf. intros H. apply bool_decide_eq_true in H.
  apply bool_decide_eq_true. cbn.
  apply map_Forall_insert_2; [lia|].
  intros a t Ha. apply H in Ha. lia.
Qed.

(** X1. Every forward function, on a live module of its own type and a live
    tensor handle, in a state whose live tensor handles all lie below the
    allocation cursor: when libtorch's computation yields a tensor, the
    function returns a handle that was not in use before the call and now
    refers to that tensor; the input handle and every other tensor handle,
    the modules and the caller's cells are as they were, and the state still
    has its handles below the cursor. When the computation raises, the
    function returns the null handle with the description in the last-error
    slot, and nothing else has changed (no handle was allocated). *)
Theorem forward_returns_handle_or_records_error (T : ModuleKind)
    (f : NNModule -> Tensor -> M Tensor) (a obj h : positive)
    (impl : ModuleImpl) (x : at_Tensor) (s : State)
    (Hf : exported_forward T = Some f)
    (Hm : modules s !! a = Some obj) (Hi : impls s !! obj = Some impl)
    (Hk : impl_kind impl = T) (Hx : tensors s !! h = Some x)
    (Hwf : tensors_wf s = true) :
  match Impl_forward impl x with
  | inr y =>
      exists hn s',
        f (Some a) (Some h) s = Ok (Some hn) s' /\
        tensors s !! hn = None /\
        tensors s' = <[hn := Some y]> (tensors s) /\
        tensors s' !! h = Some x /\
        impls s' = impls s /\ modules s' = modules s /\
        anymodules s' = anymodules s /\ cells s' = cells s /\
        tensors_wf s' = true
  | inl w => f (Some a) (Some h) s = Ok nullptr (set_last_err w s)
  end.
Proof.
  rewrite (exported_forward_body T f Hf).
  unfold CATCH_TENSOR, CATCH, module_forward, bind.
  rewrite (module_as_Ok T a obj impl s Hm Hi Hk), (deref_tensor_Ok h x s Hx).
  cbn. destruct (Impl_forward impl x) as [w|y]; [reflexivity|].
  pose proof (tensors_wf_fresh s (next s) Hwf ltac:(lia)) as Hfresh.
  exists (next s), (boxed y s). split; [reflexivity|].
  split; [exact Hfresh|]. split; [reflexivity|]. split.
  - cbn. rewrite lookup_insert_ne; [exact Hx|]. congruence.
  - repeat split. now apply tensors_wf_boxed.
Qed.

(** X2. The catch boundary of a forward function does not cover bad
    handles: a null or dangling module handle, a module of another type than
    the function's, and a null or dangling tensor handle are dereferenced
    (undefined behaviour), whatever libtorch would have computed. *)
Theorem forward_on_bad_handle_is_undefined (T : ModuleKind)
    (f : NNModule -> Tensor -> M Tensor) (s : State)
    (Hf : exported_forward T = Some f) :
  (forall tensor, f nullptr tensor s = Crash) /\
  (forall a tensor, modules s !! a = None -> f (Some a) tensor s = Crash) /\
  (forall a obj impl tensor,
     modules s !! a = Some obj -> impls s !! obj = Some impl ->
     impl_kind impl <> T -> f (Some a) tensor s = Crash) /\
  (forall a obj impl,
     modules s !! a = Some obj -> impls s !! obj = Some impl ->
     impl_kind impl = T ->
     f (Some a) nullptr s = Crash /\
     (forall h, tensors s !! h = None -> f (Some a) (Some h) s = Crash)).
Proof.
  rewrite (exported_forward_body T f Hf).
  unfold CATCH_TENSOR, CATCH, module_forward, bind.
  split; [|split; [|split]].
  - reflexivity.
  - intros a tensor Hm. cbn. now rewrite Hm.
  - intros a obj impl tensor Hm Hi Hk. cbn. rewrite Hm, Hi.
    destruct (decide (impl_kind impl = T)); [contradiction|reflexivity].
  - intros a obj impl Hm Hi Hk.
    rewrite (module_as_Ok T a obj impl s Hm Hi Hk). split; [reflexivity|].
    intros h Hh. cbn. now rewrite Hh.
Qed.

(** ** ApplyPaddingMode *)

(** X3. [ApplyPaddingMode] composes by "the last code in range wins": a
    second call with a code in 0..3 gives what that code alone gives. And a
    call touches no slot but the padding mode: putting the old mode back
    restores the record. Both hold for the convolution and the transposed
    convolution options. *)
Theorem ApplyPaddingMode_last_code_wins :
  (forall (o : ConvOptions.t) pm1 pm2,
     0 <= pm2 <= 3 ->
     ApplyPaddingMode (ApplyPaddingMode o pm1) pm2 = ApplyPaddingMode o pm2) /\
  (forall (o : ConvTransposeOptions.t) pm1 pm2,
     0 <= pm2 <= 3 ->
     ApplyPaddingMode (ApplyPaddingMode o pm1) pm2 = ApplyPaddingMode o pm2) /\
  (forall (o : ConvOptions.t) pm,
     ConvOptions.set_padding_mode (ConvOptions.padding_mode o)
       (ApplyPaddingMode o pm) = o) /\
  (forall (o : ConvTransposeOptions.t) pm,
     ConvTransposeOptions.set_padding_mode (ConvTransposeOptions.padding_mode o)
       (ApplyPaddingMode o pm) = o).
Proof.
  assert (Hcases : forall pm2, 0 <= pm2 <= 3 -> pm2 = 0 \/ pm2 = 1 \/ pm2 = 2 \/ pm2 = 3)
    by (intros; lia).
  split; [|split; [|split]].
  - intros o pm1 pm2 H. unfold ApplyPaddingMode at 2.
    destruct (Hcases pm2 H) as [-> | [-> | [-> | ->]]];
      destruct (pm1 =? 0), (pm1 =? 1), (pm1 =? 2), (pm1 =? 3); reflexivity.
  - intros o pm1 pm2 H. unfold ApplyPaddingMode at 2.
    destruct (Hcases pm2 H) as [-> | [-> | [-> | ->]]];
      destruct (pm1 =? 0), (pm1 =? 1), (pm1 =? 2), (pm1 =? 3); reflexivity.
  - intros o pm. destruct o. unfold ApplyPaddingMode.
    destruct (pm =? 0), (pm =? 1), (pm =? 2), (pm =? 3); reflexivity.
  - intros o pm. destruct o. unfold ApplyPaddingMode.
    destruct (pm =? 0), (pm =? 1), (pm =? 2), (pm =? 3); reflexivity.
Qed.

(** ** Numeric padding *)

Lemma options_padding_ApplyPaddingMode (o : ModuleOptions) (pm : Z) :
  options_padding (options_ApplyPaddingMode o pm) = options_padding o.
Proof.
  destruct o; try reflexivity; cbn; unfold ApplyPaddingMode;
    destruct (pm =? 0), (pm =? 1), (pm =? 2), (pm =? 3); reflexivity.
Qed.

(** X4. In the Conv2d and Conv3d constructors a padding that is neither -1
    nor 0 is the width: on every axis for the single-scalar constructors, and
    axis by axis for the per-axis overloads, where [paddingY] and [paddingZ]
    are taken as they are (-1 or 0 there is no sentinel). *)
Theorem conv_numeric_padding (p : Z) (Hsame : p <> -1) (Hvalid : p <> 0) :
  (forall i o k s d pm g b,
     options_padding (conv_options (Call_Conv2d i o k s p d pm g b)) =
     Some (Explicit [p; p])) /\
  (forall i o k s d pm g b,
     options_padding (conv_options (Call_Conv3d i o k s p d pm g b)) =
     Some (Explicit [p; p; p])) /\
  (forall i o kx ky sx sy py dx dy pm g b,
     options_padding
       (conv_options (Call_Conv2d_1 i o kx ky sx sy p py dx dy pm g b)) =
     Some (Explicit [p; py])) /\
  (forall i o kx ky kz sx sy sz py pz dx dy dz pm g b,
     options_padding
       (conv_options
          (Call_Conv3d_1 i o kx ky kz sx sy sz p py pz dx dy dz pm g b)) =
     Some (Explicit [p; py; pz])).
Proof.
  repeat split; intros; unfold conv_options;
    rewrite options_padding_ApplyPaddingMode; cbn;
    unfold Conv2d_padd, Conv3d_padd, Conv2d_1_padd, Conv3d_1_padd;
    destruct (Z.eqb_spec p (-1)); try contradiction;
    destruct (Z.eqb_spec p 0); try contradiction; reflexivity.
Qed.

(** X5. [THSNN_Conv1d_ctor] tests for -1 only: every other padding, zero
    included, becomes the explicit width of the one axis. *)
Theorem conv1d_padding_is_width_unless_minus_one (p : Z) (Hsame : p <> -1) :
  forall i o k s d pm g b,
    options_padding (conv_options (Call_Conv1d i o k s p d pm g b)) =
    Some (Explicit [p]).
Proof.
  intros. unfold conv_options. rewrite options_padding_ApplyPaddingMode. cbn.
  unfold Conv1d_padd. destruct (Z.eqb_spec p (-1)); [contradiction|reflexivity].
Qed.

(** ** Arrays of the pooling constructors *)

(** X6. When a pooling constructor has built its options, every array it
    was given is in its slot: the kernel size is the first [D] values of the
    kernel array, a stride, padding or dilation array that is not null has
    put its first [D] values into its slot, and the [ceil_mode] flag of a max
    pool is the argument. *)
Theorem supplied_arrays_fill_their_slots (c : ctor_call) (s s' : State)
    (opts : ModuleOptions) (Hopts : call_opts c s = Ok opts s') :
  let D := kind_dim (call_kind c) in
  (forall k len, head (call_arrays c) = Some (k, len) ->
     exists l, k = Some l /\ pool_kernel_size opts = Some (firstn D l)) /\
  (forall l, call_stride c = Some (Some l) ->
     pool_stride opts = Some (firstn D l)) /\
  (forall l, call_padding c = Some (Some l) ->
     pool_padding opts = Some (firstn D l)) /\
  (forall l, call_dilation c = Some (Some l) ->
     pool_dilation opts = Some (firstn D l)) /\
  (forall cm, call_ceil_mode c = Some cm -> pool_ceil_mode opts = Some cm).
Proof.
  destruct c; cbn [call_opts] in Hopts; unfold_builders Hopts;
    split_arrays ExpandingArray_of_cases Hopts;
    simplify_eq;
    cbn; repeat split; intros; simplify_eq; eauto.
Qed.

(** X7. How the option building of a constructor ends is decided by the
    arrays it converts (the kernel array, and the optional arrays that are
    not null, each with its length argument). If every one has a length
    equal to the dimension and holds that many values, the options are
    built. If the building raises, it is the size check, and some array has
    a length other than the dimension. If a pointer is dereferenced wrongly,
    some array has the right length and is null or too short. The length
    argument of a null optional array plays no part. *)
Theorem option_building_decided_by_arrays (c : ctor_call) (s : State) :
  let D := kind_dim (call_kind c) in
  (forallb (fun a => length_ok D a && readable D a) (call_arrays c) = true ->
   exists opts, call_opts c s = Ok opts s) /\
  (forall w s', call_opts c s = Throw w s' ->
     w = "Expected a fixed number of values for an ExpandingArray"%string /\
     s' = s /\
     existsb (fun a => negb (length_ok D a)) (call_arrays c) = true) /\
  (call_opts c s = Crash ->
   existsb (fun a => length_ok D a && negb (readable D a)) (call_arrays c) =
   true).
Proof.
  cbv zeta. split; [|split].
  - intros Hok. apply forallb_excludes in Hok as [Hlen Hread].
    pose proof (call_opts_state c s) as Hst.
    destruct (call_opts c s) as [opts s1|w s1|] eqn:E.
    + subst. eauto.
    + apply call_opts_Throw in E as [_ E]. congruence.
    + apply call_opts_Crash in E. congruence.
  - intros w s' E. pose proof (call_opts_state c s) as Hst. rewrite E in Hst.
    apply call_opts_Throw in E as [-> E]. auto.
  - apply call_opts_Crash.
Qed.

Lemma kind_dim_le_3 (c : ctor_call) : (kind_dim (call_kind c) <= 3)%nat.
Proof. destruct c as [| | | | | | | | | | | | | | | | | | | | | |c];
         try destruct c; cbn; lia. Qed.

Lemma ctor_kernel_length_fault (c : ctor_call) (out : handle) (s : State)
    (k : int64_ptr) (len : Z) :
  head (call_arrays c) = Some (k, len) ->
  length_ok (kind_dim (call_kind c)) (k, len) = false ->
  invoke c out s =
  Ok nullptr
    (set_last_err "Expected a fixed number of values for an ExpandingArray" s).
Proof.
  intros Hk Hlen. rewrite invoke_boundary.
  unfold CATCH_RETURN_NNModule, CATCH, ctor_stmt, bind.
  assert (E : call_opts c s =
              Throw "Expected a fixed number of values for an ExpandingArray" s).
  { destruct c; cbn [call_arrays head] in Hk; simplify_eq;
      cbn [call_opts kind_dim call_kind] in *;
      unfold AvgPool1d_opts, AvgPool2d_opts, AvgPool3d_opts, AdaptivePool_opts,
        MaxPool1d_opts, MaxPool2d_opts, MaxPool3d_opts, bind;
      rewrite ExpandingArray_of_spec;
      match goal with
      | |- context [?l mod 2 ^ 64 =? Z.of_nat ?D] =>
          change (l mod 2 ^ 64 =? Z.of_nat D) with (length_ok D (k, l))
      end;
      rewrite Hlen; reflexivity. }
  now rewrite E.
Qed.

(** X8. A negative length for the kernel array (any C [int] below zero)
    never matches the dimension once it is a [size_t]: the constructor
    reads nothing, returns the null handle and records the size-check
    error. This holds for the 2D/3D pooling constructors and for all six
    adaptive pooling constructors. *)
Theorem negative_kernel_length_is_a_caught_fault (c : ctor_call)
    (out : handle) (s : State) (k : int64_ptr) (len : Z)
    (Hk : head (call_arrays c) = Some (k, len))
    (Hneg : - 2 ^ 31 <= len < 0) :
  invoke c out s =
  Ok nullptr
    (set_last_err "Expected a fixed number of values for an ExpandingArray" s).
Proof.
  apply (ctor_kernel_length_fault c out s k len Hk).
  unfold length_ok; cbn [snd]. apply Z.eqb_neq.
  pose proof (kind_dim_le_3 c) as HD.
  change (2 ^ 64) with 18446744073709551616.
  change (2 ^ 31) with 2147483648 in Hneg.
  Z.div_mod_to_equations. lia.
Qed.

(** X9. The kernel array is not optional: a null kernel pointer whose
    length matches the dimension is read (undefined behaviour), and the
    catch boundary does not cover it. The 1D pooling constructors, which fix
    the length to 1, do so for every null kernel pointer. *)
Theorem null_kernel_is_dereferenced (c : ctor_call) (out : handle) (s : State)
    (len : Z)
    (Hk : head (call_arrays c) = Some (None, len))
    (Hlen : length_ok (kind_dim (call_kind c)) (None, len) = true) :
  invoke c out s = Crash.
Proof.
  rewrite invoke_boundary.
  unfold CATCH_RETURN_NNModule, CATCH, ctor_stmt, bind.
  assert (E : call_opts c s = Crash).
  { destruct c; cbn [call_arrays head] in Hk; simplify_eq;
      cbn [call_opts kind_dim call_kind] in *;
      unfold AvgPool1d_opts, AvgPool2d_opts, AvgPool3d_opts, AdaptivePool_opts,
        MaxPool1d_opts, MaxPool2d_opts, MaxPool3d_opts, bind;
      rewrite ExpandingArray_of_spec;
      match goal with
      | |- context [?l mod 2 ^ 64 =? Z.of_nat ?D] =>
          change (l mod 2 ^ 64 =? Z.of_nat D) with (length_ok D (None, l))
      end;
      rewrite Hlen; reflexivity. }
  now rewrite E.
Qed.

(** ** Constructors, from the options to the module *)

Lemma call_kind_has_forward (c : ctor_call) :
  exists f, exported_forward (call_kind c) = Some f.
Proof.
  destruct c as [| | | | | | | | | | | | | | | | | | | | | |c];
    try destruct c; cbn; eauto.
Qed.

(** X11. A constructor and the forward function of its module type
    compose. When a constructor, called in a state whose live tensor handles
    lie below the allocation cursor, returns a handle, the module behind it
    is the one libtorch built from the constructor's options, with the
    parameters libtorch returned, and the forward function of that module
    type accepts the handle in the state the constructor left (which still
    has its tensor handles below the cursor): on any live tensor handle the
    call is defined; it returns a handle that was not in use, now referring
    to libtorch's result for that module, or the null handle with the error
    recorded. *)
Theorem constructed_module_runs_forward (c : ctor_call) (out : handle)
    (s s1 : State) (res : positive)
    (Hctor : invoke c out s = Ok (Some res) s1)
    (Hwf : tensors_wf s = true) :
  exists f opts params,
    exported_forward (call_kind c) = Some f /\
    call_opts c s = Ok opts s /\
    Impl_new (call_kind c) opts = inr params /\
    tensors_wf s1 = true /\
    forall h x,
      tensors s1 !! h = Some x ->
      match Impl_forward
              (mkImpl (call_kind c) opts (fst params) (snd params)) x with
      | inr y =>
          exists hn s2,
            f (Some res) (Some h) s1 = Ok (Some hn) s2 /\
            tensors s1 !! hn = None /\
            tensors s2 = <[hn := Some y]> (tensors s1)
      | inl w => f (Some res) (Some h) s1 = Ok nullptr (set_last_err w s1)
      end.
Proof.
  destruct (call_kind_has_forward c) as [f Hf].
  rewrite invoke_boundary in Hctor.
  unfold CATCH_RETURN_NNModule, CATCH, ctor_stmt, bind in Hctor.
  pose proof (call_opts_state c s) as Hst.
  destruct (call_opts c s) as [opts s0|w s0|]; subst; try discriminate Hctor.
  unfold create_module, bind, lift in Hctor.
  destruct (Impl_new (call_kind c) opts) as [w|params] eqn:Hnew;
    cbn in Hctor; try discriminate Hctor.
  exists f, opts, params. split; [exact Hf|]. split; [reflexivity|].
  split; [exact Hnew|].
  assert (Hwf1 : tensors_wf s1 = true).
  { apply (tensors_wf_mono s); [exact Hwf | |];
      destruct out; cbn in Hctor; injection Hctor as _ <-; cbn;
      first [reflexivity | lia]. }
  split; [exact Hwf1|].
  intros h x Hx. rewrite (exported_forward_body _ f Hf).
  unfold CATCH_TENSOR, CATCH, module_forward, bind.
  destruct out as [cell|]; cbn in Hctor; injection Hctor as <- <-;
    (erewrite module_as_Ok;
     [ | cbn; apply lookup_insert_eq | cbn; apply lookup_insert_eq | reflexivity ]);
    rewrite (deref_tensor_Ok h x _ Hx); cbn;
    (destruct (Impl_forward _ x) as [w|y]; [reflexivity|]);
    eexists _, _; (split; [reflexivity|]); cbn;
    (split; [apply (tensors_wf_fresh s); [exact Hwf|lia] | reflexivity]).
Qed.

(** ** forward_with_indices *)

(** X12. The [indices] pointer of the three forward_with_indices functions
    is written without a null test: on a live module and tensor, a call with
    a null [indices] is undefined, whether the computation succeeds or
    raises. *)
Theorem forward_with_indices_null_slot_is_undefined (p : max_pool)
    (a obj h : positive) (impl : ModuleImpl) (x : at_Tensor) (s : State)
    (Hm : modules s !! a = Some obj) (Hi : impls s !! obj = Some impl)
    (Hk : impl_kind impl = max_pool_kind p) (Hx : tensors s !! h = Some x) :
  THSNN_forward_with_indices p (Some a) (Some h) nullptr s = Crash.
Proof.
  pose proof (module_forward_with_indices_run (max_pool_kind p) a obj h impl
                x s Hm Hi Hk Hx) as Hrun.
  destruct p; cbn [max_pool_kind THSNN_forward_with_indices] in Hrun |- *;
    unfold THSNN_MaxPool1d_forward_with_indices,
      THSNN_MaxPool2d_forward_with_indices,
      THSNN_MaxPool3d_forward_with_indices, bind, CATCH;
    rewrite Hrun;
    destruct (Impl_forward_with_indices impl x) as [w|[v i]]; reflexivity.
Qed.

(** ** What the constructors set and what they leave *)

(** X13. A convolution constructor overwrites every slot of the options
    record but the padding mode with its arguments, whatever the padding and
    the padding mode are: a single scalar goes to every axis, per-axis values
    keep the order X, Y(, Z), and groups and bias are passed on. Only the
    padding mode can be left at the library's default. *)
Theorem conv_ctor_sets_every_slot :
  (forall i o kx ky sx sy px py dx dy pm g b,
     exists m,
       conv_options (Call_Conv2d_1 i o kx ky sx sy px py dx dy pm g b) =
       OConv (ConvOptions.mk i o [kx; ky] [sx; sy] (Conv2d_1_padd px py)
                [dx; dy] g b m)) /\
  (forall i o kx ky kz sx sy sz px py pz dx dy dz pm g b,
     exists m,
       conv_options
         (Call_Conv3d_1 i o kx ky kz sx sy sz px py pz dx dy dz pm g b) =
       OConv (ConvOptions.mk i o [kx; ky; kz] [sx; sy; sz]
                (Conv3d_1_padd px py pz) [dx; dy; dz] g b m)) /\
  (forall i o k st p d pm g b,
     exists m,
       conv_options (Call_Conv1d i o k st p d pm g b) =
       OConv (ConvOptions.mk i o [k] [st] (Conv1d_padd p) [d] g b m)) /\
  (forall i o k st p d pm g b,
     exists m,
       conv_options (Call_Conv2d i o k st p d pm g b) =
       OConv (ConvOptions.mk i o [k; k] [st; st] (Conv2d_padd p) [d; d] g b m)) /\
  (forall i o k st p d pm g b,
     exists m,
       conv_options (Call_Conv3d i o k st p d pm g b) =
       OConv (ConvOptions.mk i o [k; k; k] [st; st; st] (Conv3d_padd p)
                [d; d; d] g b m)) /\
  (forall i o k st p op d pm g b,
     exists m,
       conv_options (Call_ConvTranspose1d i o k st p op d pm g b) =
       OConvTranspose (ConvTransposeOptions.mk i o [k] [st] [p] [op] g b [d] m)) /\
  (forall i o k st p op d pm g b,
     exists m,
       conv_options (Call_ConvTranspose2d i o k st p op d pm g b) =
       OConvTranspose
         (ConvTransposeOptions.mk i o [k; k] [st; st] [p; p] [op; op] g b
            [d; d] m)) /\
  (forall i o k st p op d pm g b,
     exists m,
       conv_options (Call_ConvTranspose3d i o k st p op d pm g b) =
       OConvTranspose
         (ConvTransposeOptions.mk i o [k; k; k] [st; st; st] [p; p; p]
            [op; op; op] g b [d; d; d] m)).
Proof.
  repeat split; intros; unfold conv_options; cbn; unfold ApplyPaddingMode;
    destruct (pm =? 0), (pm =? 1), (pm =? 2), (pm =? 3);
    eexists; reflexivity.
Qed.

(** X14. The average-pool constructors configure the kernel size and the
    stride and nothing else: the options they build are libtorch's own
    options for that kernel size with, at most, the stride replaced (padding,
    ceil mode, count-include-pad and divisor override all stay at the
    library's values). *)
Theorem avg_pool_ctor_sets_kernel_and_stride_only (c : ctor_call)
    (s s' : State) (o : AvgPoolOptions.t)
    (Hopts : call_opts c s = Ok (OAvgPool o) s') :
  o = AvgPoolOptions.set_stride (AvgPoolOptions.stride o)
        (AvgPoolOptions.new (kind_dim (call_kind c))
           (AvgPoolOptions.kernel_size o)).
Proof.
  destruct c; cbn [call_opts] in Hopts; unfold_builders Hopts;
    split_arrays ExpandingArray_of_cases Hopts; simplify_eq;
    try reflexivity;
    match goal with
    | c : conv_ctor |- _ => destruct c; discriminate
    end.
Qed.

End FurtherProperties.


(** ** The further properties on concrete calls *)

Lemma forward_returns_handle_or_records_error_witness :
  exists hn s',
    THSNN_MaxPool1d_forward (lib := stub_library)
      (Some 11%positive) (Some 21%positive) pool_state = Ok (Some hn) s' /\
    tensors pool_state !! hn = None /\
    tensors s' = <[hn := Some 10%positive]> (tensors pool_state) /\
    tensors s' !! 21%positive = Some (Some 5%positive) /\
    impls s' = impls pool_state /\ modules s' = modules pool_state /\
    anymodules s' = anymodules pool_state /\ cells s' = cells pool_state /\
    tensors_wf s' = true.
Proof.
  exact (forward_returns_handle_or_records_error (lib := stub_library)
           (MaxPoolNd 1) THSNN_MaxPool1d_forward
           11%positive 10%positive 21%positive
           (mkImpl (MaxPoolNd 1) (OMaxPool (MaxPoolOptions.new 1 [2])) None None)
           (Some 5%positive) pool_state
           eq_refl eq_refl eq_refl eq_refl eq_refl eq_refl).
Defined.

Lemma forward_on_bad_handle_is_undefined_witness :
  THSNN_Conv1d_forward (lib := stub_library)
    (Some 11%positive) (Some 21%positive) pool_state = Crash.
Proof.
  exact (proj1 (proj2 (proj2
           (forward_on_bad_handle_is_undefined (lib := stub_library)
              (ConvNd 1) THSNN_Conv1d_forward pool_state eq_refl)))
           11%positive 10%positive
           (mkImpl (MaxPoolNd 1) (OMaxPool (MaxPoolOptions.new 1 [2])) None None)
           (Some 21%positive) eq_refl eq_refl ltac:(discriminate)).
Defined.

Lemma ApplyPaddingMode_last_code_wins_witness :
  ApplyPaddingMode (ApplyPaddingMode (ConvOptions.new 2 3 8 [5; 5]) 1) 2 =
  ApplyPaddingMode (ConvOptions.new 2 3 8 [5; 5]) 2.
Proof.
  exact (proj1 ApplyPaddingMode_last_code_wins (ConvOptions.new 2 3 8 [5; 5])
           1 2 ltac:(lia)).
Defined.

Lemma conv_numeric_padding_witness :
  options_padding
    (conv_options (Call_Conv2d_1 3 8 5 5 1 1 1 (-1) 1 1 0 1 true)) =
  Some (Explicit [1; -1]).
Proof.
  exact (proj1 (proj2 (proj2
           (conv_numeric_padding 1 ltac:(discriminate) ltac:(discriminate))))
           3 8 5 5 1 1 (-1) 1 1 0 1 true).
Defined.

Lemma conv1d_padding_is_width_unless_minus_one_witness :
  options_padding (conv_options (Call_Conv1d 3 8 5 1 0 1 0 1 true)) =
  Some (Explicit [0]).
Proof.
  exact (conv1d_padding_is_width_unless_minus_one 0 ltac:(discriminate)
           3 8 5 1 1 0 1 true).
Defined.

Lemma supplied_arrays_fill_their_slots_witness :
  pool_dilation
    (OMaxPool (MaxPoolOptions.mk [3; 3] [2; 2] [0; 0] [1; 1] true)) =
  Some (firstn 2 [1; 1; 7]).
Proof.
  exact (proj1 (proj2 (proj2 (proj2
           (supplied_arrays_fill_their_slots
              (Call_MaxPool2d (Some [3; 3; 9]) 2 (Some [2; 2]) 2 None 0
                 (Some [1; 1; 7]) 2 true)
              empty_state empty_state
              (OMaxPool (MaxPoolOptions.mk [3; 3] [2; 2] [0; 0] [1; 1] true))
              eq_refl))))
           [1; 1; 7] eq_refl).
Defined.

Lemma option_building_decided_by_arrays_witness :
  exists opts,
    call_opts (Call_AvgPool2d (Some [2; 2]) 2 None 99) empty_state =
    Ok opts empty_state.
Proof.
  exact (proj1 (option_building_decided_by_arrays
                  (Call_AvgPool2d (Some [2; 2]) 2 None 99) empty_state)
           eq_refl).
Defined.

Lemma negative_kernel_length_is_a_caught_fault_witness :
  invoke (lib := stub_library)
    (Call_AdaptiveAvgPool2d (Some [1; 1]) (-2)) None empty_state =
  Ok nullptr
    (set_last_err "Expected a fixed number of values for an ExpandingArray"
       empty_state).
Proof.
  apply (negative_kernel_length_is_a_caught_fault (lib := stub_library)
           (Call_AdaptiveAvgPool2d (Some [1; 1]) (-2)) None empty_state
           (Some [1; 1]) (-2) eq_refl).
  split; [vm_compute; discriminate | reflexivity].
Defined.

Lemma null_kernel_is_dereferenced_witness :
  invoke (lib := stub_library) (Call_AvgPool1d None None) None empty_state =
  Crash.
Proof.
  exact (null_kernel_is_dereferenced (lib := stub_library)
           (Call_AvgPool1d None None) None empty_state 1 eq_refl eq_refl).
Defined.

Lemma constructed_module_runs_forward_witness :
  exists s1 f hn s2,
    invoke (lib := stub_library)
      (Call_MaxPool1d (Some [2]) None None None false) None pool_state =
      Ok (Some 41%positive) s1 /\
    exported_forward (lib := stub_library) (MaxPoolNd 1) = Some f /\
    f (Some 41%positive) (Some 21%positive) s1 = Ok (Some hn) s2 /\
    tensors s1 !! hn = None /\
    tensors s2 = <[hn := Some 10%positive]> (tensors s1).
Proof.
  eexists.
  destruct (constructed_module_runs_forward (lib := stub_library)
              (Call_MaxPool1d (Some [2]) None None None false) None
              pool_state _ 41%positive eq_refl eq_refl)
    as (f & opts & params & Hf & _ & _ & _ & Hrun).
  destruct (Hrun 21%positive (Some 5%positive) eq_refl)
    as (hn & s2 & Hret & Hfresh & Hnew).
  exists f, hn, s2. split; [reflexivity|]. split; [exact Hf|].
  split; [exact Hret|]. split; [exact Hfresh | exact Hnew].
Defined.

Lemma forward_with_indices_null_slot_is_undefined_witness :
  THSNN_MaxPool1d_forward_with_indices (lib := stub_library)
    (Some 11%positive) (Some 21%positive) nullptr pool_state = Crash.
Proof.
  exact (forward_with_indices_null_slot_is_undefined (lib := stub_library)
           MaxPool1d 11%positive 10%positive 21%positive
           (mkImpl (MaxPoolNd 1) (OMaxPool (MaxPoolOptions.new 1 [2])) None None)
           (Some 5%positive) pool_state eq_refl eq_refl eq_refl eq_refl).
Defined.

Lemma avg_pool_ctor_sets_kernel_and_stride_only_witness :
  AvgPoolOptions.mk [2; 2; 2] [1; 1; 1] [0; 0; 0] false true None =
  AvgPoolOptions.set_stride [1; 1; 1] (AvgPoolOptions.new 3 [2; 2; 2]).
Proof.
  exact (avg_pool_ctor_sets_kernel_and_stride_only
           (Call_AvgPool3d (Some [2; 2; 2]) 3 (Some [1; 1; 1]) 3)
           empty_state empty_state
           (AvgPoolOptions.mk [2; 2; 2] [1; 1; 1] [0; 0; 0] false true None)
           eq_refl).
Defined.
